(** * Pricing engines of the Hilton travel calculator

    A shallow embedding of the two pricing computations of
    [src/components/CarRentalSelector.tsx]: the [costs] memo of
    [CarRentalSelector] and [calculateCashPrice] / [calculatePointsSavings]
    with the reporting effect of [HotelSelector], together with the panels,
    the links and the drop-down groups around them.

    Numbers.  The car rental memo rounds its results to cents and indexes
    a plain object by a string; its numbers are IEEE 754 binary64 values,
    the primitive floats of the kernel, and its category lookup follows the
    prototype chain.  The hotel engine never rounds.  There a JavaScript
    [number] is modelled by an exact rational: values typed [number] in the
    component props and in the reference tables are elements of [Q]; where
    the code itself can manufacture a [NaN] out of well-typed input
    (parsing a date or a points string) the type [Js.number] adds it.
    Binary64 rounding error, infinities and the sign of zero are outside
    the hotel model.

    Reference tables.  [carRentals] and [expandedHiltonProperties] live in
    data modules that are not part of the sources at hand; only the record
    shapes are known.  Both tables are parameters of the engines. *)

From Stdlib Require Import Floats Uint63.
From Stdlib Require Import QArith Qround Qabs ZArith List String Ascii Bool.
From Stdlib Require Import Permutation Lia Lqa.
Import ListNotations.

Set Warnings "-inexact-float".

Open Scope Q_scope.

(* ================================================================== *)
(** * JavaScript values *)
(* ================================================================== *)

Module Js.

(** [Math.min] on two finite numbers. *)
Definition Math_min (a b : Q) : Q := if Qle_bool a b then a else b.

(** A number that may be [NaN]. *)
Inductive number : Type :=
| NaN
| Num (q : Q).

Definition lift2 (f : Q -> Q -> Q) (a b : number) : number :=
  match a, b with
  | Num x, Num y => Num (f x y)
  | _, _ => NaN
  end.

Definition add : number -> number -> number := lift2 Qplus.
Definition sub : number -> number -> number := lift2 Qminus.
Definition mul : number -> number -> number := lift2 Qmult.

(** Division; the engines only divide by non-zero literals, a zero divisor
    is mapped to [NaN]. *)
Definition div (a b : number) : number :=
  match a, b with
  | Num x, Num y => if Qeq_bool y 0 then NaN else Num (x / y)
  | _, _ => NaN
  end.

(** [a <= b] and [a < b]; every comparison with [NaN] is false.
    [a >= b] is written [leb b a]. *)
Definition leb (a b : number) : bool :=
  match a, b with
  | Num x, Num y => Qle_bool x y
  | _, _ => false
  end.

Definition ltb (a b : number) : bool :=
  match a, b with
  | Num x, Num y => negb (Qle_bool y x)
  | _, _ => false
  end.

(** Truthiness of a number: [0] and [NaN] are falsy. *)
Definition truthy (a : number) : bool :=
  match a with
  | NaN => false
  | Num x => negb (Qeq_bool x 0)
  end.

(** [a || d] on numbers. *)
Definition or_else (a d : number) : number := if truthy a then a else d.

Definition ceil (a : number) : number :=
  match a with
  | NaN => NaN
  | Num x => Num (inject_Z (Qceiling x))
  end.

(** [Math.min] with [NaN] propagation. *)
Definition min (a b : number) : number := lift2 Math_min a b.

(** Same number: both [NaN], or equal rationals. *)
Definition same (a b : number) : Prop :=
  match a, b with
  | NaN, NaN => True
  | Num x, Num y => x == y
  | _, _ => False
  end.

(** Order as JavaScript evaluates it: false as soon as a side is [NaN]. *)
Definition le (a b : number) : Prop :=
  match a, b with
  | Num x, Num y => x <= y
  | _, _ => False
  end.

Definition lt (a b : number) : Prop :=
  match a, b with
  | Num x, Num y => x < y
  | _, _ => False
  end.

(** [new Date(s)] as far as the engines look at it: [getTime()] in
    milliseconds and [getMonth()], both [NaN] for an invalid date. *)
Record Date : Type := mkDate { getTime : number; getMonth : number }.

(** What the host environment supplies: the [Date] constructor on strings
    and the [Number] conversion of strings. *)
Class Runtime : Type := {
  newDate : string -> Date;
  Number : string -> number
}.

End Js.

Declare Scope js_scope.
Delimit Scope js_scope with js.
Infix "+" := Js.add : js_scope.
Infix "-" := Js.sub : js_scope.
Infix "*" := Js.mul : js_scope.
Infix "/" := Js.div : js_scope.
Infix "<=?" := Js.leb : js_scope.
Infix "<?" := Js.ltb : js_scope.
Infix "||" := Js.or_else : js_scope.
Infix "=j=" := Js.same (at level 70, no associativity).

(* ================================================================== *)
(** * Reference data: record shapes *)
(* ================================================================== *)

(** The fields of a Hilton property record that the hotel engine reads. *)
Module HiltonProperties.

Record Property : Type := {
  id : string;
  brandId : string;
  basePrice : Q;
  city : string;
  amenities : list string
}.

End HiltonProperties.

(* ================================================================== *)
(** * Hotel engine *)
(* ================================================================== *)

Module HotelSelector.

Import Js HiltonProperties.

(** The [details] prop. *)
Record Details : Type := {
  brand : string;
  property : string;
  checkIn : string;
  checkOut : string;
  rooms : Q;
  points : string
}.

(** The object handed to [onCostUpdate]. *)
Record Cost : Type := {
  cashPrice : number;
  pointsSavings : number
}.

Module HOTEL_FEES.
Definition resortFee : Q := 35.
Definition parkingFee : Q := 25.
Definition serviceFee : Q := 10.
Definition amenityFee : Q := 15.
Definition destinationFee : Q := 20.
End HOTEL_FEES.

Module TAX_RATES.
Definition roomTax : Q := 0.145.
Definition occupancyTax : Q := 0.035.
Definition cityTax : Q := 0.02.
Definition tourismLevy : Q := 0.01.
End TAX_RATES.

Module SEASONAL_RATES.
Definition peak : Q := 1.4.
Definition shoulder : Q := 1.2.
Definition offPeak : Q := 0.8.
End SEASONAL_RATES.

Definition majorCities : list string :=
  ["New York"; "Los Angeles"; "Chicago"; "Miami"; "Las Vegas"]%string.

(** [list.includes(s)] on strings. *)
Definition includes (l : list string) (s : string) : bool :=
  existsb (String.eqb s) l.

(** The [if / else if] chain on [month] in [calculateCashPrice]. *)
Definition seasonalRateOf (month : number) : Q :=
  if (Num 5 <=? month)%js && (month <=? Num 7)%js then SEASONAL_RATES.peak
  else if (Num 2 <=? month)%js && (month <=? Num 4)%js
       then SEASONAL_RATES.shoulder
  else if (Num 11 <=? month)%js || (month <=? Num 1)%js
       then SEASONAL_RATES.offPeak
  else 1.

(** The conditional expression bound to [lengthDiscount]. *)
Definition lengthDiscountOf (nights : number) : Q :=
  if (Num 7 <=? nights)%js then 0.85
  else if (Num 4 <=? nights)%js then 0.9
  else if (Num 2 <=? nights)%js then 0.95
  else 1.

(** [Math.ceil((new Date(checkOut).getTime() - new Date(checkIn).getTime())
    / (1000 * 60 * 60 * 24))]. *)
Definition nightsOf {rt : Runtime} (checkIn checkOut : string) : number :=
  ceil ((getTime (newDate checkOut) - getTime (newDate checkIn))
        / Num (1000 * 60 * 60 * 24))%js.

Section Engine.

Context {rt : Runtime}.

(** [selectedProperty] is the closure variable of the component. *)
Definition calculateCashPrice (selectedProperty : option Property)
    (basePrice : Q) (checkIn checkOut : string) (rooms : Q) : number :=
  if (checkIn =? "")%string || (checkOut =? "")%string then Num 0
  else
    let nights := nightsOf checkIn checkOut in
    if (nights <=? Num 0)%js then Num 0
    else
      let month := getMonth (newDate checkIn) in
      let seasonalRate := seasonalRateOf month in
      let lengthDiscount := lengthDiscountOf nights in
      let roomCost :=
        (Num basePrice * Num seasonalRate * Num lengthDiscount
         * nights * Num rooms)%js in
      let isMajorCity :=
        match selectedProperty with
        | Some p =>
          if (city p =? "")%string then false
          else includes majorCities (city p)
        | None => false
        end in
      let hasResortFee :=
        match selectedProperty with
        | Some p =>
          includes (amenities p) "Pool"
          || includes (amenities p) "Spa Services"
        | None => false
        end in
      let fees :=
        (Num ((if hasResortFee then HOTEL_FEES.resortFee else 0)
              + HOTEL_FEES.serviceFee
              + HOTEL_FEES.amenityFee
              + (if isMajorCity then HOTEL_FEES.destinationFee else 0))
         * nights * Num rooms)%js in
      let roomTax := (roomCost * Num TAX_RATES.roomTax)%js in
      let occupancyTax := (roomCost * Num TAX_RATES.occupancyTax)%js in
      let cityTax :=
        if isMajorCity then (roomCost * Num TAX_RATES.cityTax)%js
        else Num 0 in
      let tourismLevy := (roomCost * Num TAX_RATES.tourismLevy)%js in
      (roomCost + fees + roomTax + occupancyTax + cityTax
       + tourismLevy)%js.

Definition calculatePointsSavings (points : string) (cashPrice : number)
  : number :=
  let pointsNum := (Number points || Num 0)%js in
  Js.min (pointsNum * Num 0.005)%js (cashPrice * Num 0.8)%js.

(** [details.property ? expandedHiltonProperties.find(...) : null]. *)
Definition selectedPropertyOf (expandedHiltonProperties : list Property)
    (d : Details) : option Property :=
  if (property d =? "")%string then None
  else find (fun p => (id p =? property d)%string)
            expandedHiltonProperties.

(** The effect: the argument it passes to [onCostUpdate]. *)
Definition costUpdate (expandedHiltonProperties : list Property)
    (d : Details) : Cost :=
  let selectedProperty :=
    selectedPropertyOf expandedHiltonProperties d in
  match selectedProperty with
  | Some p =>
    let cashPrice :=
      calculateCashPrice selectedProperty (basePrice p)
                         (checkIn d) (checkOut d) (rooms d) in
    let pointsSavings := calculatePointsSavings (points d) cashPrice in
    {| cashPrice := cashPrice; pointsSavings := pointsSavings |}
  | None => {| cashPrice := Num 0; pointsSavings := Num 0 |}
  end.

(** A points string that does not convert to a negative number. *)
Definition notNegative (points : string) : Prop :=
  ~ Js.lt (Number points) (Num 0).

(** The "Final Cost" tile of the hotel panel. *)
Definition finalCost (c : Cost) : number :=
  (cashPrice c - pointsSavings c)%js.

End Engine.

End HotelSelector.

(* ================================================================== *)
(** * A concrete host environment *)
(* ================================================================== *)

(** A runtime for evaluating the hotel engine on examples.  It reads
    calendar dates written [YYYY-MM-DD] as midnight UTC and reports the month
    in UTC, and it converts plain decimal literals (an optional sign, digits,
    an optional fraction); the empty string converts to [0]; every other
    string is an invalid date, respectively [NaN]. *)
Module UtcRuntime.

Import Js.

Definition digit (c : ascii) : option Z :=
  let n := (Z.of_nat (nat_of_ascii c) - 48)%Z in
  if ((0 <=? n) && (n <=? 9))%Z then Some n else None.

Fixpoint digits (acc : Z) (s : string) : option Z :=
  match s with
  | EmptyString => Some acc
  | String c rest =>
    match digit c with
    | Some d => digits (10 * acc + d)%Z rest
    | None => None
    end
  end.

(** Non-empty digit string. *)
Definition natural (s : string) : option Z :=
  match s with
  | EmptyString => None
  | _ => digits 0 s
  end.

Definition isLeap (y : Z) : bool :=
  ((y mod 4 =? 0) && (negb (y mod 100 =? 0) || (y mod 400 =? 0)))%Z.

Definition daysInMonth (y m : Z) : Z :=
  if (m =? 2)%Z then (if isLeap y then 29 else 28)%Z
  else if ((m =? 4) || (m =? 6) || (m =? 9) || (m =? 11))%Z then 30%Z
  else 31%Z.

(** Days between 1970-01-01 and the civil date [y-m-d]. *)
Definition daysFromCivil (y m d : Z) : Z :=
  let y' := (if m <=? 2 then y - 1 else y)%Z in
  let era := (y' / 400)%Z in
  let yoe := (y' - era * 400)%Z in
  let mp := ((m + 9) mod 12)%Z in
  let doy := ((153 * mp + 2) / 5 + d - 1)%Z in
  let doe := (yoe * 365 + yoe / 4 - yoe / 100 + doy)%Z in
  (era * 146097 + doe - 719468)%Z.

Definition invalidDate : Date := {| getTime := NaN; getMonth := NaN |}.

Definition isoDate (s : string) : Date :=
  if negb (Nat.eqb (String.length s) 10) then invalidDate
  else if negb ((substring 4 1 s =? "-")%string
                && (substring 7 1 s =? "-")%string) then invalidDate
  else
    match natural (substring 0 4 s), natural (substring 5 2 s),
          natural (substring 8 2 s) with
    | Some y, Some m, Some d =>
      if ((1 <=? m) && (m <=? 12) && (1 <=? d)
          && (d <=? daysInMonth y m))%Z
      then {| getTime := Num (inject_Z (daysFromCivil y m d * 86400000));
              getMonth := Num (inject_Z (m - 1)) |}
      else invalidDate
    | _, _, _ => invalidDate
    end.

(** [i.f] for digit strings [i] and [f]. *)
Definition unsignedDecimal (s : string) : option Q :=
  match index 0 "." s with
  | None => option_map inject_Z (natural s)
  | Some k =>
    let f := substring (S k) (String.length s - S k) s in
    match natural (substring 0 k s), natural f with
    | Some i, Some n =>
      Some (inject_Z i + inject_Z n / inject_Z (10 ^ Z.of_nat (String.length f)))
    | _, _ => None
    end
  end.

Definition decimal (s : string) : number :=
  match s with
  | EmptyString => Num 0
  | String "-" rest =>
    match unsignedDecimal rest with
    | Some q => Num (- q)
    | None => NaN
    end
  | _ =>
    match unsignedDecimal s with
    | Some q => Num q
    | None => NaN
    end
  end.

#[export] Instance runtime : Runtime :=
  {| newDate := isoDate; Number := decimal |}.

End UtcRuntime.

(* ================================================================== *)
(** * The pricing rules as the specification words them *)
(* ================================================================== *)

Module Spec.

Import HiltonProperties.

(** "city in {New York, Los Angeles, Chicago, Miami, Las Vegas}". *)
Definition isMajorCity (p : Property) : bool :=
  existsb (String.eqb (city p))
          ["New York"; "Los Angeles"; "Chicago"; "Miami"; "Las Vegas"]%string.

(** "amenities includes Pool or Spa Services". *)
Definition hasResortFee (p : Property) : bool :=
  existsb (String.eqb "Pool") (amenities p)
  || existsb (String.eqb "Spa Services") (amenities p).

Definition roomCost (basePrice seasonal length nights rooms : Q) : Q :=
  basePrice * seasonal * length * nights * rooms.

Definition hotelFees (p : Property) (nights rooms : Q) : Q :=
  (10 + 15 + (if hasResortFee p then 35 else 0)
   + (if isMajorCity p then 20 else 0)) * nights * rooms.

Definition hotelTaxes (p : Property) (roomCost : Q) : Q :=
  roomCost * 0.145 + roomCost * 0.035 + roomCost * 0.01
  + (if isMajorCity p then roomCost * 0.02 else 0).

(** "cashPrice = roomCost + fees + sum(taxes)". *)
Definition hotelCash (p : Property) (basePrice seasonal length nights rooms : Q)
  : Q :=
  let roomCost := roomCost basePrice seasonal length nights rooms in
  roomCost + hotelFees p nights rooms + hotelTaxes p roomCost.

(** Seasonal multiplier by 0-indexed month. *)
Definition seasonalMultiplier (month : Z) : Q :=
  if ((month =? 5) || (month =? 6) || (month =? 7))%Z then 1.4
  else if ((month =? 2) || (month =? 3) || (month =? 4))%Z then 1.2
  else if ((month =? 11) || (month =? 0) || (month =? 1))%Z then 0.8
  else 1.

(** Length multiplier by number of nights. *)
Definition lengthMultiplier (nights : Z) : Q :=
  if (7 <=? nights)%Z then 0.85
  else if (4 <=? nights)%Z then 0.9
  else if (2 <=? nights)%Z then 0.95
  else 1.

End Spec.

(* ================================================================== *)
(** * Sample reference tables and selections *)
(* ================================================================== *)

Module Sample.

Import HiltonProperties.

Definition plaza : Property :=
  {| id := "nyc-plaza"; brandId := "hilton"; HiltonProperties.basePrice := 200;
     city := "New York"; amenities := ["WiFi"; "Pool"]%string |}.

Definition lodge : Property :=
  {| id := "boise-lodge"; brandId := "hampton";
     HiltonProperties.basePrice := 100;
     city := "Boise"; amenities := ["WiFi"]%string |}.

Definition expandedHiltonProperties : list Property := [plaza; lodge].

Definition stay (prop from to : string) (n : Q) (pts : string)
  : HotelSelector.Details :=
  {| HotelSelector.brand := "";
     HotelSelector.property := prop;
     HotelSelector.checkIn := from;
     HotelSelector.checkOut := to;
     HotelSelector.rooms := n;
     HotelSelector.points := pts |}.

End Sample.

(* ================================================================== *)
(** * The panels around the engines *)
(* ================================================================== *)

(** The rate rows and the property list of the hotel panel. *)
Module HotelPanel.

Import Js HiltonProperties HotelSelector.

(** [a !== b] on numbers: [NaN] differs from everything. *)
Definition strictNeq (a b : number) : bool :=
  match a, b with
  | Num x, Num y => negb (Qeq_bool x y)
  | _, _ => true
  end.

(** [details.brand ? expandedHiltonProperties.filter(...) :
    expandedHiltonProperties]. *)
Definition filteredProperties (expandedHiltonProperties : list Property)
    (d : Details) : list Property :=
  if (brand d =? "")%string then expandedHiltonProperties
  else filter (fun p => (brandId p =? brand d)%string)
              expandedHiltonProperties.

(** The seasonal adjustment row: the season name, the sign, and the number
    handed to [toFixed(0)]. *)
Record SeasonRow : Type := {
  seasonName : string;
  sign : string;
  percent : Q
}.

(** The chain of the row: it assigns the rate together with the name. *)
Definition seasonOf (month : number) : Q * string :=
  if (Num 5 <=? month)%js && (month <=? Num 7)%js
  then (SEASONAL_RATES.peak, "Peak Season"%string)
  else if (Num 2 <=? month)%js && (month <=? Num 4)%js
  then (SEASONAL_RATES.shoulder, "Shoulder Season"%string)
  else if (Num 11 <=? month)%js || (month <=? Num 1)%js
  then (SEASONAL_RATES.offPeak, "Off-Peak Season"%string)
  else (1, ""%string).

Definition seasonAdjustment {rt : Runtime} (d : Details) : option SeasonRow :=
  let month :=
    if (checkIn d =? "")%string then Num (-1)
    else getMonth (newDate (checkIn d)) in
  let seasonalRate := fst (seasonOf month) in
  let seasonName := snd (seasonOf month) in
  if strictNeq month (Num (-1))
  then Some {| seasonName := seasonName;
               sign := if negb (Qle_bool seasonalRate 1)
                       then "+"%string else "-"%string;
               percent := Qabs ((1 - seasonalRate) * 100) |}
  else None.

(** The discount of the nights row. *)
Definition discountOf (nights : number) : Q :=
  if (Num 7 <=? nights)%js then 0.15
  else if (Num 4 <=? nights)%js then 0.10
  else if (Num 2 <=? nights)%js then 0.05
  else 0.

(** The nights discount row: the night count and the number handed to
    [toFixed(0)]; no row without both dates or without a discount. *)
Definition nightsDiscount {rt : Runtime} (d : Details)
  : option (number * Q) :=
  if (checkIn d =? "")%string || (checkOut d =? "")%string then None
  else
    let nights := nightsOf (checkIn d) (checkOut d) in
    let discount := discountOf nights in
    if negb (Qle_bool discount 0) then Some (nights, discount * 100)
    else None.

(** [selectedProperty.city && [...].includes(selectedProperty.city)], the
    condition of the two optional rows. *)
Definition majorCityRow (p : Property) : bool :=
  if (city p =? "")%string then false else includes majorCities (city p).

(** The fee rows of the panel with the amounts they print. *)
Definition feeRows (p : Property) : list (string * Q) :=
  [("Resort Fee:"%string, HOTEL_FEES.resortFee);
   ("Parking:"%string, HOTEL_FEES.parkingFee)]
  ++ (if majorCityRow p
      then [("Destination Fee:"%string, HOTEL_FEES.destinationFee)]
      else []).

(** The tax rows of the panel with the percentages they print. *)
Definition taxRows (p : Property) : list (string * Q) :=
  [("Room Tax:"%string, TAX_RATES.roomTax * 100);
   ("Occupancy Tax:"%string, TAX_RATES.occupancyTax * 100)]
  ++ (if majorCityRow p
      then [("City Tax:"%string, TAX_RATES.cityTax * 100)]
      else []).

Definition total (rows : list (string * Q)) : Q :=
  fold_right (fun row acc => snd row + acc) 0 rows.

End HotelPanel.

(* ================================================================== *)
(** * Links to the hotel site *)
(* ================================================================== *)

Module HotelLinks.

Import HiltonProperties.

(** [HiltonBrand] of the travel data types. *)
Record HiltonBrand : Type := {
  brand_id : string;
  name : string;
  category : string;
  brand_basePrice : Q;
  pointsPerDollar : Q
}.

(** A property record with the location fields the links read; [state] is
    optional. *)
Record Listing : Type := {
  core : Property;
  state : option string;
  country : string
}.

(** String operations of the host: [s.toLowerCase()] and
    [s.replace(/\s+/g, '-')]. *)
Class StringHost : Type := {
  toLowerCase : string -> string;
  dashSpaces : string -> string
}.

Section Links.

Context {host : StringHost}.

Variable hiltonBrands : list HiltonBrand.

Definition getHotelUrl (property : option Listing) : string :=
  match property with
  | None => "#"
  | Some property =>
    match find (fun b => (brand_id b =? brandId (core property))%string)
               hiltonBrands with
    | None => "#"
    | Some brand =>
      let brandSlug := dashSpaces (toLowerCase (name brand)) in
      let locationSlug :=
        (toLowerCase (city (core property)) ++ "-"
         ++ (match state property with
             | Some s =>
               if (s =? "")%string then "" else toLowerCase s ++ "-"
             | None => ""
             end)
         ++ toLowerCase (country property))%string in
      let propertySlug := toLowerCase (id (core property)) in
      ("https://www.hilton.com/en/hotels/" ++ brandSlug ++ "/"
       ++ locationSlug ++ "/" ++ propertySlug ++ "/")%string
    end
  end.

Definition getAmenityUrl (property : option Listing) (amenity : string)
  : string :=
  match property with
  | None => "#"
  | Some _ =>
    let baseUrl := getHotelUrl property in
    if (baseUrl =? "#")%string then "#"%string
    else
      let amenitySlug := dashSpaces (toLowerCase amenity) in
      (baseUrl ++ "amenities/#" ++ amenitySlug)%string
  end.

End Links.

End HotelLinks.

(** A host for strings of ASCII characters: letters [A]-[Z] are lowered,
    and every run of blanks (space, tab, line feed, vertical tab, form feed,
    carriage return) becomes one dash. *)
Module AsciiHost.

Import HotelLinks.

Definition lower (c : ascii) : ascii :=
  let n := nat_of_ascii c in
  if (Nat.leb 65 n && Nat.leb n 90)%bool then ascii_of_nat (n + 32) else c.

Fixpoint lowerAll (s : string) : string :=
  match s with
  | EmptyString => EmptyString
  | String c rest => String (lower c) (lowerAll rest)
  end.

Definition blank (c : ascii) : bool :=
  let n := nat_of_ascii c in
  (Nat.eqb n 32 || (Nat.leb 9 n && Nat.leb n 13))%bool.

(** [inRun] tells that the previous character was a blank. *)
Fixpoint dashRuns (inRun : bool) (s : string) : string :=
  match s with
  | EmptyString => EmptyString
  | String c rest =>
    if blank c
    then (if inRun then dashRuns true rest
          else String "-" (dashRuns true rest))
    else String c (dashRuns false rest)
  end.

#[export] Instance host : StringHost :=
  {| toLowerCase := lowerAll; dashSpaces := dashRuns false |}.

End AsciiHost.

Module SampleLinks.

Import HotelLinks.

Definition hiltonBrands : list HiltonBrand :=
  [ {| brand_id := "hilton"; name := "Hilton Hotels";
       category := "Full Service"; brand_basePrice := 200;
       pointsPerDollar := 10 |} ].

Definition plaza : Listing :=
  {| core := Sample.plaza; state := Some "NY"%string; country := "USA" |}.

Definition lodge : Listing :=
  {| core := Sample.lodge; state := None; country := "USA" |}.

End SampleLinks.

(* ================================================================== *)
(** * Grouped option lists *)
(* ================================================================== *)

(** The two drop-downs group their items with
    [Object.entries(items.reduce((acc, x) => { if (!acc[key(x)])
    acc[key(x)] = []; acc[key(x)].push(x); return acc; }, {}))]: brands by
    [category], properties by [region].  The accumulator is an ordinary
    object: its own properties are kept in creation order, and a key that
    is not an own property is looked up in [Object.prototype]. *)
Module Grouping.

(** The property names of [Object.prototype]. *)
Definition prototypeKeys : list string :=
  ["constructor"; "__defineGetter__"; "__defineSetter__"; "hasOwnProperty";
   "__lookupGetter__"; "__lookupSetter__"; "isPrototypeOf";
   "propertyIsEnumerable"; "toString"; "valueOf"; "__proto__";
   "toLocaleString"]%string.

Definition inherited (k : string) : bool :=
  existsb (String.eqb k) prototypeKeys.

Section Accumulator.

Context {A : Type}.

(** Own properties, oldest first; every value is an array of items. *)
Definition object : Type := list (string * list A).

(** What [acc[k]] evaluates to. *)
Inductive value : Type :=
| Undefined
| Array (items : list A)
| Inherited.

Definition get (o : object) (k : string) : value :=
  match find (fun e => (fst e =? k)%string) o with
  | Some e => Array (snd e)
  | None => if inherited k then Inherited else Undefined
  end.

(** Arrays, functions and objects are truthy. *)
Definition truthy (v : value) : bool :=
  match v with
  | Undefined => false
  | Array _ => true
  | Inherited => true
  end.

(** Writing the own property [k]: in place if it exists, else appended. *)
Fixpoint set (o : object) (k : string) (v : list A) : object :=
  match o with
  | [] => [(k, v)]
  | (k', v') :: rest =>
    if (k' =? k)%string then (k', v) :: rest
    else (k', v') :: set rest k v
  end.

Variable key : A -> string.

(** One call of the reducer; [None] is the [TypeError] of calling [push] on
    a value that has none, which ends the reduction. *)
Definition step (acc : option object) (x : A) : option object :=
  match acc with
  | None => None
  | Some o =>
    let o1 := if truthy (get o (key x)) then o else set o (key x) [] in
    match get o1 (key x) with
    | Array items => Some (set o1 (key x) (items ++ [x]))
    | Undefined => None
    | Inherited => None
    end
  end.

Definition reduce (l : list A) : option object :=
  fold_left step l (Some []).

End Accumulator.

(** Array indices: the canonical decimal numerals up to [2^32 - 2]. *)
Definition digitOf (c : ascii) : option N :=
  let n := N_of_ascii c in
  if ((48 <=? n) && (n <=? 57))%N then Some (n - 48)%N else None.

Fixpoint digitsOf (acc : N) (s : string) : option N :=
  match s with
  | EmptyString => Some acc
  | String c rest =>
    match digitOf c with
    | Some d => digitsOf (10 * acc + d)%N rest
    | None => None
    end
  end.

Definition arrayIndex (k : string) : option N :=
  match k with
  | EmptyString => None
  | String c rest =>
    if (c =? "0")%char
    then (match rest with EmptyString => Some 0%N | _ => None end)
    else
      match digitsOf 0 k with
      | Some n => if (n <=? 4294967294)%N then Some n else None
      | None => None
      end
  end.

Definition isIndex (k : string) : bool :=
  match arrayIndex k with Some _ => true | None => false end.

Definition indexOf (k : string) : N :=
  match arrayIndex k with Some n => n | None => 0%N end.

Section Entries.

Context {V : Type}.

Fixpoint insertByIndex (e : string * V) (l : list (string * V))
  : list (string * V) :=
  match l with
  | [] => [e]
  | e' :: rest =>
    if (indexOf (fst e) <=? indexOf (fst e'))%N then e :: l
    else e' :: insertByIndex e rest
  end.

Definition sortByIndex (l : list (string * V)) : list (string * V) :=
  fold_right insertByIndex [] l.

(** [Object.entries]: array-index keys in ascending order, then the other
    keys in creation order. *)
Definition entries (o : list (string * V)) : list (string * V) :=
  sortByIndex (filter (fun e => isIndex (fst e)) o)
  ++ filter (fun e => negb (isIndex (fst e))) o.

End Entries.

(** The groups a drop-down renders, or [None] when the reducer throws. *)
Definition groups {A : Type} (key : A -> string) (l : list A)
  : option (list (string * list A)) :=
  option_map entries (reduce key l).

(** The keys of a list in order of first appearance. *)
Definition firsts (ks : list string) : list string :=
  fold_left (fun acc k => if existsb (String.eqb k) acc then acc
                          else acc ++ [k]) ks [].

(** The items of [l] filed under [k], in their order in [l]. *)
Definition filed {A : Type} (key : A -> string) (l : list A) (k : string)
  : list A :=
  filter (fun x => (key x =? k)%string) l.

(** The closed form of the accumulator: one group per key, in order of
    first appearance, holding the items filed under the key. *)
Definition closed {A : Type} (key : A -> string) (l : list A)
  : list (string * list A) :=
  map (fun k => (k, filed key l k)) (firsts (map key l)).

End Grouping.

Module SampleGroups.

Import HotelLinks.

Definition brand (i n c : string) : HiltonBrand :=
  {| brand_id := i; name := n; category := c; brand_basePrice := 100;
     pointsPerDollar := 10 |}.

Definition hiltonBrands : list HiltonBrand :=
  [ brand "wa" "Waldorf Astoria" "Luxury";
    brand "hi" "Hilton Hotels" "Full Service";
    brand "co" "Conrad" "Luxury";
    brand "hp" "Hampton" "Focused Service" ].

End SampleGroups.

(* ================================================================== *)
(** * Binary64 numbers *)
(* ================================================================== *)

(** The car rental memo rounds its results to cents, so its numbers are
    modelled as what they are: IEEE 754 binary64 values, with the primitive
    operations of the kernel. *)
Module F64.

(** Truthiness of a number: [0], [-0] and [NaN] are falsy. *)
Definition truthy (x : float) : bool :=
  negb (PrimFloat.is_nan x || (x =? 0)%float).

(** The integer [z] as a number; exact below [2^53] in absolute value. *)
Definition of_Z (z : Z) : float :=
  let f := PrimFloat.of_uint63 (Uint63.of_Z (Z.abs z)) in
  if (z <? 0)%Z then (- f)%float else f.

(** [Math.round]: the nearest integer, ties towards plus infinity, computed
    on the exact value [m * 2^e] of the argument; integers, infinities and
    [NaN] are returned as they are, and a result of zero keeps the sign of
    the argument. *)
Definition Math_round (x : float) : float :=
  match Prim2SF x with
  | S754_finite s m e =>
    if (0 <=? e)%Z then x
    else
      let n := if s then Zneg m else Zpos m in
      let r := Z.shiftr (2 * n + 2 ^ (- e)) (- e + 1) in
      if (r =? 0)%Z then (if s then PrimFloat.neg_zero else PrimFloat.zero)
      else of_Z r
  | _ => x
  end.

(** [Math.min] on two numbers: [NaN] if either is, and [-0] below [+0]. *)
Definition Math_min (a b : float) : float :=
  if PrimFloat.is_nan a || PrimFloat.is_nan b then PrimFloat.nan
  else if (a <? b)%float then a
  else if (b <? a)%float then b
  else if PrimFloat.get_sign a then a else b.

(** The idiom [Math.round(x * 100) / 100]. *)
Definition round2 (x : float) : float := (Math_round (x * 100) / 100)%float.

(** Zero of either sign, a positive finite number or plus infinity: the
    values [x] with [x >= 0]. *)
Definition nonnegSF (s : spec_float) : Prop :=
  match s with
  | S754_zero _ => True
  | S754_infinity false => True
  | S754_finite false _ _ => True
  | _ => False
  end.

(** A positive finite number. *)
Definition positiveSF (s : spec_float) : Prop :=
  match s with
  | S754_finite false _ _ => True
  | _ => False
  end.

Definition nonneg (x : float) : Prop := nonnegSF (Prim2SF x).

Definition positiveFinite (x : float) : Prop := positiveSF (Prim2SF x).

(** [isFinite]: neither [NaN] nor an infinity. *)
Definition isFinite (x : float) : bool :=
  match Prim2SF x with
  | S754_zero _ => true
  | S754_finite _ _ _ => true
  | _ => false
  end.

End F64.

(* ================================================================== *)
(** * Car rental reference data *)
(* ================================================================== *)

(** [CarRental] of the travel data types. *)
Module TravelData.

Record Categories : Type := {
  economy : float;
  midsize : float;
  luxury : float;
  suv : float
}.

Record CarRental : Type := {
  company : string;
  basePrice : float;
  categories : Categories
}.

(** What indexing a plain object by a string evaluates to: nothing, a
    number held by the object itself, or a member of [Object.prototype]
    (a function, or the prototype object for ["__proto__"]). *)
Inductive property : Type :=
| Undefined
| Number (x : float)
| Inherited.

(** [categories[key]]: own properties first, then the prototype. *)
Definition category_get (c : Categories) (key : string) : property :=
  if (key =? "economy")%string then Number (economy c)
  else if (key =? "midsize")%string then Number (midsize c)
  else if (key =? "luxury")%string then Number (luxury c)
  else if (key =? "suv")%string then Number (suv c)
  else if Grouping.inherited key then Inherited
  else Undefined.

(** [v || d]: functions and objects are truthy. *)
Definition or_default (v : property) (d : float) : property :=
  match v with
  | Undefined => Number d
  | Number x => if F64.truthy x then Number x else Number d
  | Inherited => Inherited
  end.

(** The operand of a multiplication as a number: a function or a plain
    object converts to [NaN]. *)
Definition toNumber (v : property) : float :=
  match v with
  | Number x => x
  | Undefined => PrimFloat.nan
  | Inherited => PrimFloat.nan
  end.

(** A number that is finite and not negative. *)
Definition amount (x : float) : Prop :=
  F64.isFinite x = true /\ (0 <=? x)%float = true.

(** A row whose price and multipliers are finite and not negative. *)
Definition amounts (r : CarRental) : Prop :=
  amount (basePrice r)
  /\ amount (economy (categories r)) /\ amount (midsize (categories r))
  /\ amount (luxury (categories r)) /\ amount (suv (categories r)).

End TravelData.

(* ================================================================== *)
(** * Car rental engine *)
(* ================================================================== *)

Module CarRentalSelector.

Import TravelData.

(** The [details] prop. *)
Record Details : Type := {
  company : string;
  category : string;
  days : float
}.

Record RateDetails : Type := {
  baseRate : float;
  discount : float;
  fees : float;
  taxes : float
}.

(** The object returned by the memo. *)
Record Costs : Type := {
  cashPrice : float;
  pointsSavings : float;
  details : option RateDetails
}.

Definition zero : Costs :=
  {| cashPrice := 0; pointsSavings := 0; details := None |}.

(** [carRentals.find(r => r.company === details.company)]. *)
Definition findRental (carRentals : list CarRental) (d : Details)
  : option CarRental :=
  find (fun r => (TravelData.company r =? company d)%string) carRentals.

Definition costs (carRentals : list CarRental) (d : Details) (points : float)
  : Costs :=
  if (company d =? "")%string || (days d <=? 0)%float then zero
  else
    match findRental carRentals d with
    | None => zero
    | Some rental =>
      let categoryMultiplier :=
        or_default (category_get (categories rental) (category d)) 1 in
      let dailyRate :=
        (basePrice rental * toNumber categoryMultiplier)%float in
      let baseRental := (dailyRate * days d)%float in
      let insuranceFee := (15 * days d)%float in
      let airportFee := 25%float in
      let vehicleLicenseFee := 8.50%float in
      let facilityFee := 12%float in
      let totalFees :=
        (insuranceFee + airportFee + vehicleLicenseFee + facilityFee)%float in
      let discount :=
        if (7 <=? days d)%float then 0.15%float
        else if (3 <=? days d)%float then 0.10%float
        else 0%float in
      let discountedBase := (baseRental * (1 - discount))%float in
      let subtotal := (discountedBase + totalFees)%float in
      let salesTax := (subtotal * 0.0825)%float in
      let rentalTax := (baseRental * 0.115)%float in
      let totalTaxes := (salesTax + rentalTax)%float in
      let cashPrice := (subtotal + totalTaxes)%float in
      let pointsSavings :=
        F64.Math_min (points * 0.008)%float (cashPrice * 0.5)%float in
      {| cashPrice := F64.round2 cashPrice;
         pointsSavings := F64.round2 pointsSavings;
         details := Some {| baseRate := dailyRate;
                            discount := discount;
                            fees := totalFees;
                            taxes := totalTaxes |} |}
    end.

(** The local [cashPrice] of the memo, before [Math.round]. *)
Definition rawCashPrice (rental : CarRental) (d : Details) : float :=
  let dailyRate :=
    (basePrice rental
     * toNumber (or_default (category_get (categories rental) (category d))
                            1))%float in
  let baseRental := (dailyRate * days d)%float in
  let totalFees := (15 * days d + 25 + 8.50 + 12)%float in
  let discount :=
    if (7 <=? days d)%float then 0.15%float
    else if (3 <=? days d)%float then 0.10%float
    else 0%float in
  let subtotal := (baseRental * (1 - discount) + totalFees)%float in
  let totalTaxes := (subtotal * 0.0825 + baseRental * 0.115)%float in
  (subtotal + totalTaxes)%float.

(** The "Final Cost" tile: [costs.cashPrice - costs.pointsSavings]. *)
Definition finalCost (c : Costs) : float :=
  (cashPrice c - pointsSavings c)%float.

End CarRentalSelector.

(** Visibility of the car rental breakdown panel:
    [details.company && details.category && details.days > 0]. *)
Module CarRentalPanel.

Import CarRentalSelector.

Definition shown (d : Details) : bool :=
  negb (company d =? "")%string && negb (category d =? "")%string
  && (0 <? days d)%float.

End CarRentalPanel.

Module SampleCars.

Import TravelData.

Definition standard : Categories :=
  {| economy := 1; midsize := 1.3; luxury := 2.2; suv := 1.7 |}.

Definition rental (name : string) (price : float) (c : Categories)
  : CarRental :=
  {| company := name; basePrice := price; categories := c |}.

Definition carRentals : list CarRental :=
  [ rental "Alpha" 23 standard;
    rental "Beta" 25 standard;
    rental "Gamma" 40 standard;
    rental "Delta" 31 standard ].

Definition car (name cat : string) (n : float) : CarRentalSelector.Details :=
  {| CarRentalSelector.company := name;
     CarRentalSelector.category := cat;
     CarRentalSelector.days := n |}.

End SampleCars.

(** The car rental rules as the specification words them, evaluated in
    binary64 in the order in which they are written. *)
Module SpecCar.

Import TravelData.

(** "multiplier defaults to 1 if category unknown": the table entry of a
    known category, 1 for any other string. *)
Definition categoryMultiplier (r : CarRental) (category : string) : float :=
  match category_get (categories r) category with
  | Number m => m
  | Undefined => 1
  | Inherited => 1
  end.

(** "15% if days >= 7, 10% if days >= 3, else 0%". *)
Definition carDiscount (days : float) : float :=
  if (7 <=? days)%float then 0.15%float
  else if (3 <=? days)%float then 0.10%float
  else 0%float.

(** The reference cash price, rounded to two decimals. *)
Definition carCash (basePrice multiplier days : float) : float :=
  let dailyRate := (basePrice * multiplier)%float in
  let baseRental := (dailyRate * days)%float in
  let fees := (15 * days + 25 + 8.50 + 12)%float in
  let subtotal := (baseRental * (1 - carDiscount days) + fees)%float in
  let taxes := (subtotal * 0.0825 + baseRental * 0.115)%float in
  F64.round2 (subtotal + taxes).

End SpecCar.

(* ================================================================== *)
(** * Minimum of two rationals *)
(* ================================================================== *)

Section Minimum.

Import Js.

Lemma Math_min_l (a b : Q) : Math_min a b <= a.
Proof.
  unfold Math_min. destruct (Qle_bool a b) eqn:E; [lra|].
  destruct (Qlt_le_dec b a) as [Hlt | Hle]; [lra|].
  apply Qle_bool_iff in Hle. congruence.
Qed.

Lemma Math_min_r (a b : Q) : Math_min a b <= b.
Proof.
  unfold Math_min. destruct (Qle_bool a b) eqn:E; [|lra].
  apply Qle_bool_iff in E. exact E.
Qed.

Lemma Math_min_cases (a b : Q) :
  (a <= b /\ Math_min a b = a) \/ (b < a /\ Math_min a b = b).
Proof.
  unfold Math_min. destruct (Qle_bool a b) eqn:E.
  - left. split; [apply Qle_bool_iff; exact E | reflexivity].
  - right. split; [|reflexivity].
    destruct (Qlt_le_dec b a) as [Hlt | Hle]; [exact Hlt|].
    apply Qle_bool_iff in Hle. congruence.
Qed.

Lemma Math_min_comp (a a' b b' : Q) :
  a == a' -> b == b' -> Math_min a b == Math_min a' b'.
Proof.
  intros Ha Hb.
  destruct (Math_min_cases a b) as [[H1 ->] | [H1 ->]];
    destruct (Math_min_cases a' b') as [[H2 ->] | [H2 ->]]; lra.
Qed.

Lemma Math_min_mono_l (a a' b : Q) :
  a <= a' -> Math_min a b <= Math_min a' b.
Proof.
  intros Ha.
  destruct (Math_min_cases a b) as [[H1 ->] | [H1 ->]];
    destruct (Math_min_cases a' b) as [[H2 ->] | [H2 ->]]; lra.
Qed.

Lemma Math_min_glb (a b c : Q) : c <= a -> c <= b -> c <= Math_min a b.
Proof.
  intros Ha Hb. destruct (Math_min_cases a b) as [[_ ->] | [_ ->]]; lra.
Qed.

End Minimum.

(* ================================================================== *)
(** * Binary64: signs of results *)
(* ================================================================== *)

Section FloatSigns.

Import F64.

Lemma iter_pos_invariant {A : Type} (Inv : A -> Prop) (f : A -> A) :
  (forall x, Inv x -> Inv (f x)) ->
  forall (p : positive) (x : A), Inv x -> Inv (SpecFloat.iter_pos f p x).
Proof.
  intros Hf. induction p as [p IH | p IH |]; intros x Hx; simpl.
  - apply IH, IH, Hf, Hx.
  - apply IH, IH, Hx.
  - apply Hf, Hx.
Qed.

Lemma shr_1_nonneg (mrs : shr_record) :
  (0 <= shr_m mrs)%Z -> (0 <= shr_m (shr_1 mrs))%Z.
Proof.
  destruct mrs as [m r s]. simpl.
  destruct m as [|p|p]; simpl; intros Hm; try lia;
    destruct p; simpl; lia.
Qed.

Lemma shr_nonneg (mrs : shr_record) (e n : Z) :
  (0 <= shr_m mrs)%Z -> (0 <= shr_m (fst (shr mrs e n)))%Z.
Proof.
  intros Hm. unfold shr. destruct n as [|p|p]; simpl; try exact Hm.
  apply (iter_pos_invariant (fun x => (0 <= shr_m x)%Z));
    [apply shr_1_nonneg | exact Hm].
Qed.

Lemma shr_fexp_nonneg (prec emax m e : Z) (l : location) :
  (0 <= m)%Z -> (0 <= shr_m (fst (shr_fexp prec emax m e l)))%Z.
Proof.
  intros Hm. unfold shr_fexp. apply shr_nonneg.
  destruct l as [|[| |]]; exact Hm.
Qed.

Lemma round_nearest_even_nonneg (m : Z) (l : location) :
  (0 <= m)%Z -> (0 <= round_nearest_even m l)%Z.
Proof.
  intros Hm. destruct l as [|[| |]]; simpl; try lia.
  destruct (Z.even m); lia.
Qed.

(** Rounding a mantissa that is not negative gives a zero, a finite number
    or an infinity of the given sign. *)
Lemma binary_round_aux_nonneg (prec emax m e : Z) (l : location) :
  (0 <= m)%Z -> nonnegSF (binary_round_aux prec emax false m e l).
Proof.
  intros Hm. unfold binary_round_aux.
  pose proof (shr_fexp_nonneg prec emax m e l Hm) as H1.
  destruct (shr_fexp prec emax m e l) as [mrs' e']. simpl in H1.
  pose proof (shr_fexp_nonneg prec emax
                (round_nearest_even (shr_m mrs') (loc_of_shr_record mrs'))
                e' loc_Exact
                (round_nearest_even_nonneg _ _ H1)) as H2.
  destruct (shr_fexp prec emax
              (round_nearest_even (shr_m mrs') (loc_of_shr_record mrs'))
              e' loc_Exact) as [mrs'' e'']. simpl in H2.
  destruct (shr_m mrs'') as [|p|p]; simpl; [exact I | | lia].
  destruct (e'' <=? emax - prec)%Z; exact I.
Qed.

Lemma binary_round_nonneg (prec emax : Z) (p : positive) (e : Z) :
  nonnegSF (binary_round prec emax false p e).
Proof.
  unfold binary_round.
  destruct (shl_align p e (fexp prec emax (Z.pos (digits2_pos p) + e)))
    as [mz ez].
  apply binary_round_aux_nonneg. lia.
Qed.

Lemma binary_normalize_nonneg (prec emax m e : Z) :
  (0 <= m)%Z -> nonnegSF (binary_normalize prec emax m e false).
Proof.
  intros Hm. destruct m as [|p|p]; simpl; [exact I | | lia].
  apply binary_round_nonneg.
Qed.

Lemma SFmul_nonneg (prec emax : Z) (a b : spec_float) :
  nonnegSF a -> positiveSF b -> nonnegSF (SFmul prec emax a b).
Proof.
  destruct a as [sa|[|]| |[|] ma ea]; destruct b as [sb|sb| |[|] mb eb];
    simpl; try tauto.
  intros _ _. apply binary_round_aux_nonneg. lia.
Qed.

Lemma SFadd_nonneg (prec emax : Z) (a b : spec_float) :
  nonnegSF a -> nonnegSF b -> nonnegSF (SFadd prec emax a b).
Proof.
  destruct a as [sa|[|]| |[|] ma ea]; destruct b as [sb|[|]| |[|] mb eb];
    simpl; try tauto.
  - intros _ _. destruct sa, sb; exact I.
  - intros _ _. apply binary_round_nonneg.
Qed.

Lemma SFdiv_nonneg (prec emax : Z) (a b : spec_float) :
  nonnegSF a -> positiveSF b -> nonnegSF (SFdiv prec emax a b).
Proof.
  destruct a as [sa|[|]| |[|] ma ea]; destruct b as [sb|sb| |[|] mb eb];
    simpl; try tauto.
  intros _ _. unfold SFdiv_core_binary.
  set (m' := match _ with Z.pos _ => _ | Z0 => Z.pos ma | Z.neg _ => 0%Z end).
  assert (Hm' : (0 <= m')%Z).
  { unfold m'. destruct (_ - _ - _)%Z; try lia.
    apply Z.shiftl_nonneg. lia. }
  pose proof (Z.div_pos m' (Z.pos mb) Hm' ltac:(lia)) as Hq.
  unfold Z.div in Hq.
  destruct (Z.div_eucl m' (Z.pos mb)) as [q r].
  apply binary_round_aux_nonneg. exact Hq.
Qed.

End FloatSigns.

Section FloatFacts.

Import F64.

Lemma leb_zero_nonneg (x : float) :
  (0 <=? x)%float = true <-> nonneg x.
Proof.
  rewrite FloatAxioms.leb_spec. unfold nonneg.
  change (Prim2SF 0%float) with (S754_zero false).
  destruct (Prim2SF x) as [s|[|]| |[|] m e]; simpl;
    split; intros H; try exact I; try reflexivity;
    try discriminate; try contradiction.
Qed.

(** [d > 0] rules out [d <= 0]. *)
Lemma ltb_zero_not_leb (d : float) :
  (0 <? d)%float = true -> (d <=? 0)%float = false.
Proof.
  rewrite FloatAxioms.ltb_spec, FloatAxioms.leb_spec.
  change (Prim2SF 0%float) with (S754_zero false).
  destruct (Prim2SF d) as [s|[|]| |[|] m e]; simpl;
    intros H; try reflexivity; discriminate.
Qed.

(** A finite number that is not [<= 0] is positive. *)
Lemma guard_positive (d : float) :
  isFinite d = true -> (d <=? 0)%float = false -> positiveFinite d.
Proof.
  unfold isFinite, positiveFinite. rewrite FloatAxioms.leb_spec.
  change (Prim2SF 0%float) with (S754_zero false).
  destruct (Prim2SF d) as [s|[|]| |[|] m e]; simpl;
    intros Hf Hle; try exact I; discriminate.
Qed.

Lemma amount_nonneg (x : float) : TravelData.amount x -> nonneg x.
Proof. intros [_ Hle]. apply leb_zero_nonneg. exact Hle. Qed.

(** A truthy amount is a positive finite number. *)
Lemma truthy_amount_positive (x : float) :
  TravelData.amount x -> truthy x = true -> positiveFinite x.
Proof.
  intros [Hfin Hle] Htruthy. apply leb_zero_nonneg in Hle.
  unfold truthy, PrimFloat.is_nan in Htruthy.
  rewrite !FloatAxioms.eqb_spec in Htruthy.
  change (Prim2SF 0%float) with (S754_zero false) in Htruthy.
  unfold isFinite in Hfin. unfold nonneg in Hle. unfold positiveFinite.
  destruct (Prim2SF x) as [s|[|]| |[|] m e]; simpl in *;
    try exact I; try discriminate; contradiction.
Qed.

Lemma positive_nonneg (x : float) : positiveFinite x -> nonneg x.
Proof.
  unfold positiveFinite, nonneg.
  destruct (Prim2SF x) as [s|[|]| |[|] m e]; simpl; tauto.
Qed.

Lemma mul_nonneg (a b : float) :
  nonneg a -> positiveFinite b -> nonneg (a * b)%float.
Proof.
  unfold nonneg, positiveFinite. rewrite FloatAxioms.mul_spec.
  apply SFmul_nonneg.
Qed.

Lemma add_nonneg (a b : float) :
  nonneg a -> nonneg b -> nonneg (a + b)%float.
Proof.
  unfold nonneg. rewrite FloatAxioms.add_spec. apply SFadd_nonneg.
Qed.

Lemma div_nonneg (a b : float) :
  nonneg a -> positiveFinite b -> nonneg (a / b)%float.
Proof.
  unfold nonneg, positiveFinite. rewrite FloatAxioms.div_spec.
  apply SFdiv_nonneg.
Qed.

Lemma of_Z_nonneg (z : Z) : (0 <= z)%Z -> nonneg (of_Z z).
Proof.
  intros Hz. unfold of_Z.
  replace (z <? 0)%Z with false by lia.
  unfold nonneg. rewrite FloatAxioms.of_uint63_spec.
  apply binary_normalize_nonneg.
  apply Uint63.to_Z_bounded.
Qed.

Lemma Math_round_nonneg (x : float) : nonneg x -> nonneg (Math_round x).
Proof.
  intros Hx. unfold Math_round. unfold nonneg in Hx.
  destruct (Prim2SF x) as [s|[|]| |[|] m e] eqn:E; simpl in Hx;
    try contradiction; try (unfold nonneg; rewrite E; exact I).
  destruct (0 <=? e)%Z; [unfold nonneg; rewrite E; exact I|].
  destruct (Z.shiftr (2 * Z.pos m + 2 ^ (- e)) (- e + 1) =? 0)%Z eqn:Er.
  - exact I.
  - apply of_Z_nonneg. apply Z.shiftr_nonneg.
    assert (H2 : (0 <= 2 ^ (- e))%Z) by (apply Z.pow_nonneg; lia). lia.
Qed.

Lemma round2_nonneg (x : float) : nonneg x -> nonneg (round2 x).
Proof.
  intros Hx. unfold round2. apply div_nonneg; [|exact I].
  apply Math_round_nonneg. apply mul_nonneg; [exact Hx | exact I].
Qed.

End FloatFacts.

(* ================================================================== *)
(** * Car rental: what the memo returns *)
(* ================================================================== *)

Section CarRentalFacts.

Import TravelData CarRentalSelector.

Variable carRentals : list CarRental.

Lemma guard_passes (d : Details) :
  company d <> ""%string -> (days d <=? 0)%float = false ->
  (company d =? "")%string || (days d <=? 0)%float = false.
Proof.
  intros Hname Hdays. apply String.eqb_neq in Hname.
  rewrite Hname, Hdays. reflexivity.
Qed.

(** Both returned amounts and the breakdown, for a selection that reaches
    the computation: the cash price is the rounded local [cashPrice], the
    points value is the rounded minimum taken on the unrounded one. *)
Lemma costs_found (d : Details) (points : float) (rental : CarRental) :
  company d <> ""%string -> (days d <=? 0)%float = false ->
  findRental carRentals d = Some rental ->
  cashPrice (costs carRentals d points)
  = F64.round2 (rawCashPrice rental d)
  /\ pointsSavings (costs carRentals d points)
     = F64.round2 (F64.Math_min (points * 0.008)%float
                                (rawCashPrice rental d * 0.5)%float)
  /\ details (costs carRentals d points) <> None.
Proof.
  intros Hname Hdays Hfind. unfold costs.
  rewrite (guard_passes d Hname Hdays), Hfind.
  split; [reflexivity|]. split; [reflexivity | discriminate].
Qed.

Lemma costs_zero (d : Details) (points : float) :
  company d = ""%string \/ (days d <=? 0)%float = true
  \/ findRental carRentals d = None ->
  costs carRentals d points = zero.
Proof.
  intros [Hname | [Hdays | Hfind]]; unfold costs.
  - rewrite Hname. reflexivity.
  - rewrite Hdays, orb_true_r. reflexivity.
  - destruct (_ || _); [reflexivity|]. rewrite Hfind. reflexivity.
Qed.

Lemma findRental_In (d : Details) (rental : CarRental) :
  findRental carRentals d = Some rental -> In rental carRentals.
Proof. intros Hfind. apply find_some in Hfind. tauto. Qed.

(** The multiplier of a well-formed row, for a category that is not a
    property name of [Object.prototype], is a positive finite number. *)
Lemma multiplier_positive (rental : CarRental) (cat : string) :
  amounts rental -> Grouping.inherited cat = false ->
  F64.positiveFinite
    (toNumber (or_default (category_get (categories rental) cat) 1)).
Proof.
  intros (_ & He & Hm & Hl & Hs) Hown. unfold category_get.
  assert (Hentry : forall x, amount x ->
            F64.positiveFinite (toNumber (or_default (Number x) 1))).
  { intros x Hx. simpl. destruct (F64.truthy x) eqn:E; simpl.
    - apply truthy_amount_positive; assumption.
    - exact I. }
  repeat (match goal with
          | |- context [if (cat =? ?k)%string then _ else _] =>
            destruct (cat =? k)%string; [apply Hentry; assumption|]
          end).
  rewrite Hown. exact I.
Qed.

(** The unrounded price of a well-formed row is not negative. *)
Lemma rawCashPrice_nonneg (rental : CarRental) (d : Details) :
  amounts rental -> Grouping.inherited (category d) = false ->
  F64.positiveFinite (days d) ->
  F64.nonneg (rawCashPrice rental d).
Proof.
  intros Hrow Hown Hdays. unfold rawCashPrice.
  pose proof (multiplier_positive rental (category d) Hrow Hown) as Hmult.
  set (m := toNumber (or_default (category_get (categories rental)
                                               (category d)) 1)) in *.
  assert (Hbase : F64.nonneg (basePrice rental * m * days d)%float).
  { apply mul_nonneg; [|exact Hdays].
    apply mul_nonneg; [|exact Hmult].
    apply amount_nonneg. apply Hrow. }
  assert (Hfees : F64.nonneg (15 * days d + 25 + 8.50 + 12)%float).
  { repeat (apply add_nonneg; [|exact I]).
    apply mul_nonneg; [exact I | exact Hdays]. }
  assert (Hrate : F64.positiveFinite
            (1 - (if (7 <=? days d)%float then 0.15
                  else if (3 <=? days d)%float then 0.10 else 0))%float).
  { destruct (7 <=? days d)%float; [exact I|].
    destruct (3 <=? days d)%float; exact I. }
  cbv zeta.
  assert (Hsub : F64.nonneg
            (basePrice rental * m * days d
             * (1 - (if (7 <=? days d)%float then 0.15
                     else if (3 <=? days d)%float then 0.10 else 0))
             + (15 * days d + 25 + 8.50 + 12))%float).
  { apply add_nonneg; [|exact Hfees].
    apply mul_nonneg; [exact Hbase | exact Hrate]. }
  apply add_nonneg; [exact Hsub|].
  apply add_nonneg.
  - apply mul_nonneg; [exact Hsub | exact I].
  - apply mul_nonneg; [exact Hbase | exact I].
Qed.

(** For a table of well-formed rows, a finite number of days and a
    category that is not a property name of [Object.prototype], the
    returned cash price is not negative. *)
Lemma car_cashPrice_nonneg (d : Details) (points : float) :
  (forall r, In r carRentals -> amounts r) ->
  F64.isFinite (days d) = true ->
  Grouping.inherited (category d) = false ->
  (0 <=? cashPrice (costs carRentals d points))%float = true.
Proof.
  intros Htable Hfin Hown.
  destruct (string_dec (company d) "") as [Hname | Hname].
  { rewrite costs_zero by (left; exact Hname). reflexivity. }
  destruct (days d <=? 0)%float eqn:Hdays.
  { rewrite costs_zero by (right; left; exact Hdays). reflexivity. }
  destruct (findRental carRentals d) as [rental|] eqn:Hfind.
  2:{ rewrite costs_zero by (right; right; exact Hfind). reflexivity. }
  destruct (costs_found d points rental Hname Hdays Hfind) as [Hcash _].
  rewrite Hcash. apply leb_zero_nonneg, round2_nonneg.
  apply rawCashPrice_nonneg.
  - apply Htable. apply (findRental_In d). exact Hfind.
  - exact Hown.
  - apply guard_positive; assumption.
Qed.

End CarRentalFacts.

(* ================================================================== *)
(** * Car rental: the price against the reference formula *)
(* ================================================================== *)

Section CarRentalFormula.

Import TravelData CarRentalSelector.

Variable carRentals : list CarRental.

(** The multiplier the memo uses is the one of the reference formula as
    soon as the category is not a property name of [Object.prototype] and
    the table entry of a known category is truthy. *)
Lemma multiplier_own (rental : CarRental) (cat : string) :
  Grouping.inherited cat = false ->
  (forall m, category_get (categories rental) cat = Number m ->
             F64.truthy m = true) ->
  toNumber (or_default (category_get (categories rental) cat) 1)
  = SpecCar.categoryMultiplier rental cat.
Proof.
  intros Hown Htruthy. unfold SpecCar.categoryMultiplier.
  destruct (category_get (categories rental) cat) as [|m|] eqn:E.
  - reflexivity.
  - simpl. rewrite (Htruthy m eq_refl). reflexivity.
  - exfalso. unfold category_get in E. rewrite Hown in E.
    repeat (match type of E with
            | (if ?b then _ else _) = _ => destruct b; try discriminate E
            end).
Qed.

(** X20.  For a company of the table, [days] not [<= 0] and a category
    that is not a property name of [Object.prototype], with a truthy table
    entry if the category is a known one, the returned [cashPrice] is the
    reference formula, evaluated in binary64 in the order in which the
    memo evaluates it, with the multiplier 1 for an unknown category. *)
Theorem car_cashPrice_own_category
    (d : Details) (points : float) (rental : CarRental) :
  company d <> ""%string -> (days d <=? 0)%float = false ->
  findRental carRentals d = Some rental ->
  Grouping.inherited (category d) = false ->
  (forall m, category_get (categories rental) (category d) = Number m ->
             F64.truthy m = true) ->
  cashPrice (costs carRentals d points)
  = SpecCar.carCash (basePrice rental)
      (SpecCar.categoryMultiplier rental (category d)) (days d).
Proof.
  intros Hname Hdays Hfind Hown Htruthy.
  destruct (costs_found carRentals d points rental Hname Hdays Hfind)
    as [Hcash _].
  rewrite Hcash. unfold rawCashPrice, SpecCar.carCash, SpecCar.carDiscount.
  rewrite (multiplier_own rental (category d) Hown Htruthy). reflexivity.
Qed.

End CarRentalFormula.

Section CarRentalFormulaExamples.

Import TravelData CarRentalSelector.

Lemma car_cashPrice_own_category_witness :
  cashPrice (costs SampleCars.carRentals
               (SampleCars.car "Delta" "economy" 5) 100000)
  = SpecCar.carCash 31 1 5.
Proof.
  apply (car_cashPrice_own_category SampleCars.carRentals
           (SampleCars.car "Delta" "economy" 5) 100000
           (SampleCars.rental "Delta" 31 SampleCars.standard)).
  - discriminate.
  - reflexivity.
  - reflexivity.
  - reflexivity.
  - intros m Hm. injection Hm as <-. reflexivity.
Defined.

(** Half-cent ties are decided by the binary64 product: five days of
    economy at base price 31 come to 299.275 on paper, the product with
    100 is just below 29927.5, and the memo returns 299.27. *)
Example car_cashPrice_tie :
  let c := costs SampleCars.carRentals
             (SampleCars.car "Delta" "economy" 5) 100000 in
  cashPrice c = 299.27%float /\ pointsSavings c = 149.64%float.
Proof. cbv zeta. split; vm_compute; reflexivity. Qed.

(** C1.  A category that is a property name of [Object.prototype] is not
    unknown to the lookup [rental.categories[details.category]]: for the
    company "Beta" (base price 25), the category "toString" and one day,
    the row is found, the lookup returns the inherited function, the
    default [|| 1] does not fire, and the returned [cashPrice] and
    [pointsSavings] are [NaN], where the reference formula with the
    multiplier 1 of an unknown category gives 95.43.  A category that is
    neither known nor inherited is priced by the formula. *)
Theorem car_cashPrice_inherited_category :
  let row := SampleCars.rental "Beta" 25 SampleCars.standard in
  let d := SampleCars.car "Beta" "toString" 1 in
  let c := costs SampleCars.carRentals d 10000 in
  findRental SampleCars.carRentals d = Some row
  /\ (0 <? days d)%float = true
  /\ category_get (categories row) (category d) = Inherited
  /\ SpecCar.categoryMultiplier row (category d) = 1%float
  /\ SpecCar.carCash (basePrice row) 1 (days d) = 95.43%float
  /\ PrimFloat.is_nan (cashPrice c) = true
  /\ PrimFloat.is_nan (pointsSavings c) = true
  /\ (cashPrice c =? SpecCar.carCash (basePrice row) 1 (days d))%float
     = false
  /\ cashPrice (costs SampleCars.carRentals
                      (SampleCars.car "Beta" "minivan" 1) 10000)
     = 95.43%float.
Proof.
  cbv zeta. repeat split; vm_compute; reflexivity.
Qed.

End CarRentalFormulaExamples.

(* ================================================================== *)
(** * Car rental: the points value against its caps *)
(* ================================================================== *)

Section CarRentalCap.

Import TravelData CarRentalSelector.

(** C4.  The returned points value can exceed both caps.  The minimum is
    taken on the unrounded amounts and both results are then rounded to
    cents, each on its own.  One day of economy at base price 23 with
    10000 points: the memo returns [cashPrice = 93.03] and
    [pointsSavings = 46.52], above half of the returned price.  One day
    of economy at base price 40 with 1 point: [pointsSavings = 0.01],
    above the 0.008 the point is worth. *)
Theorem car_points_cap_exceeded :
  (let d := SampleCars.car "Alpha" "economy" 1 in
   let c := costs SampleCars.carRentals d 10000 in
   findRental SampleCars.carRentals d
   = Some (SampleCars.rental "Alpha" 23 SampleCars.standard)
   /\ (0 <? days d)%float = true
   /\ cashPrice c = 93.03%float
   /\ pointsSavings c = 46.52%float
   /\ (pointsSavings c <=? cashPrice c * 0.5)%float = false
   /\ (pointsSavings c <=? 10000 * 0.008)%float = true)
  /\ (let d := SampleCars.car "Gamma" "economy" 1 in
      let c := costs SampleCars.carRentals d 1 in
      findRental SampleCars.carRentals d
      = Some (SampleCars.rental "Gamma" 40 SampleCars.standard)
      /\ (0 <? days d)%float = true
      /\ cashPrice c = 113.39%float
      /\ pointsSavings c = 0.01%float
      /\ (pointsSavings c <=? 1 * 0.008)%float = false
      /\ (pointsSavings c <=? cashPrice c * 0.5)%float = true).
Proof.
  cbv zeta. repeat split; vm_compute; reflexivity.
Qed.

End CarRentalCap.

(* ================================================================== *)
(** * Hotel: multipliers *)
(* ================================================================== *)

Section HotelMultipliers.

Import Js HotelSelector.

Lemma Qle_bool_inject (a b : Z) :
  Qle_bool (inject_Z a) (inject_Z b) = (a <=? b)%Z.
Proof.
  unfold Qle_bool, inject_Z. simpl. rewrite !Z.mul_1_r. reflexivity.
Qed.

Lemma leb_inject (a b : Z) :
  (Num (inject_Z a) <=? Num (inject_Z b))%js = (a <=? b)%Z.
Proof. apply Qle_bool_inject. Qed.

(** The chain on an integer month, comparison by comparison. *)
Lemma seasonalRateOf_inject (month : Z) :
  seasonalRateOf (Num (inject_Z month))
  = if ((5 <=? month) && (month <=? 7))%Z then SEASONAL_RATES.peak
    else if ((2 <=? month) && (month <=? 4))%Z then SEASONAL_RATES.shoulder
    else if ((11 <=? month) || (month <=? 1))%Z then SEASONAL_RATES.offPeak
    else 1.
Proof.
  unfold seasonalRateOf. rewrite <- !leb_inject. reflexivity.
Qed.

Lemma lengthDiscountOf_inject (nights : Z) :
  lengthDiscountOf (Num (inject_Z nights)) = Spec.lengthMultiplier nights.
Proof.
  unfold lengthDiscountOf, Spec.lengthMultiplier.
  rewrite <- !leb_inject. reflexivity.
Qed.

(** On the twelve months the chain is the table of the specification. *)
Lemma seasonalRateOf_spec (month : Z) :
  (0 <= month <= 11)%Z ->
  seasonalRateOf (Num (inject_Z month)) = Spec.seasonalMultiplier month.
Proof.
  intros Hm.
  assert (Hcases : (month = 0 \/ month = 1 \/ month = 2 \/ month = 3
                    \/ month = 4 \/ month = 5 \/ month = 6 \/ month = 7
                    \/ month = 8 \/ month = 9 \/ month = 10
                    \/ month = 11)%Z) by lia.
  repeat (destruct Hcases as [-> | Hcases]; [reflexivity|]).
  subst month. reflexivity.
Qed.

Lemma seasonalRateOf_pos (month : number) : 0 < seasonalRateOf month.
Proof.
  unfold seasonalRateOf.
  repeat (match goal with
          | |- context [if ?b then _ else _] => destruct b
          end; try reflexivity).
Qed.

Lemma lengthDiscountOf_pos (nights : number) : 0 < lengthDiscountOf nights.
Proof.
  unfold lengthDiscountOf.
  repeat (match goal with
          | |- context [if ?b then _ else _] => destruct b
          end; try reflexivity).
Qed.

(** C7.  The seasonal multiplier is 1.4 for the 0-indexed months 5, 6, 7;
    1.2 for 2, 3, 4; 0.8 for 11, 0, 1; and 1.0 for 8, 9, 10. *)
Theorem seasonal_multiplier_by_month (month : Z) :
  ((5 <= month <= 7)%Z -> seasonalRateOf (Num (inject_Z month)) = 1.4)
  /\ ((2 <= month <= 4)%Z -> seasonalRateOf (Num (inject_Z month)) = 1.2)
  /\ ((month = 11 \/ month = 0 \/ month = 1)%Z ->
      seasonalRateOf (Num (inject_Z month)) = 0.8)
  /\ ((8 <= month <= 10)%Z -> seasonalRateOf (Num (inject_Z month)) = 1).
Proof.
  rewrite seasonalRateOf_inject.
  repeat split; intros Hm.
  - replace ((5 <=? month) && (month <=? 7))%Z with true by lia.
    reflexivity.
  - replace ((5 <=? month) && (month <=? 7))%Z with false by lia.
    replace ((2 <=? month) && (month <=? 4))%Z with true by lia.
    reflexivity.
  - replace ((5 <=? month) && (month <=? 7))%Z with false by lia.
    replace ((2 <=? month) && (month <=? 4))%Z with false by lia.
    replace ((11 <=? month) || (month <=? 1))%Z with true by lia.
    reflexivity.
  - replace ((5 <=? month) && (month <=? 7))%Z with false by lia.
    replace ((2 <=? month) && (month <=? 4))%Z with false by lia.
    replace ((11 <=? month) || (month <=? 1))%Z with false by lia.
    reflexivity.
Qed.

Lemma seasonal_multiplier_by_month_witness :
  seasonalRateOf (getMonth (UtcRuntime.isoDate "2024-06-10")) = 1.4
  /\ seasonalRateOf (getMonth (UtcRuntime.isoDate "2024-04-30")) = 1.2
  /\ seasonalRateOf (getMonth (UtcRuntime.isoDate "2024-12-31")) = 0.8
  /\ seasonalRateOf (getMonth (UtcRuntime.isoDate "2024-10-01")) = 1.
Proof.
  split; [|split; [|split]].
  - apply (proj1 (seasonal_multiplier_by_month 5)). lia.
  - apply (proj1 (proj2 (seasonal_multiplier_by_month 3))). lia.
  - apply (proj1 (proj2 (proj2 (seasonal_multiplier_by_month 11)))). lia.
  - apply (proj2 (proj2 (proj2 (seasonal_multiplier_by_month 9)))). lia.
Defined.

(** C8.  For [n > 0] nights the length multiplier is 0.85 if [n >= 7],
    0.90 if [4 <= n < 7], 0.95 if [2 <= n < 4] and 1.0 if [n = 1]; the
    boundaries 2, 4 and 7 fall in the 0.95, 0.90 and 0.85 tiers. *)
Theorem length_multiplier_tiers (n : Z) :
  (0 < n)%Z ->
  ((7 <= n)%Z -> lengthDiscountOf (Num (inject_Z n)) = 0.85)
  /\ ((4 <= n < 7)%Z -> lengthDiscountOf (Num (inject_Z n)) = 0.9)
  /\ ((2 <= n < 4)%Z -> lengthDiscountOf (Num (inject_Z n)) = 0.95)
  /\ (n = 1%Z -> lengthDiscountOf (Num (inject_Z n)) = 1)
  /\ lengthDiscountOf (Num 2) = 0.95
  /\ lengthDiscountOf (Num 4) = 0.9
  /\ lengthDiscountOf (Num 7) = 0.85.
Proof.
  intros Hpos. rewrite lengthDiscountOf_inject. unfold Spec.lengthMultiplier.
  repeat split; try reflexivity; intros Hn.
  - replace (7 <=? n)%Z with true by lia. reflexivity.
  - replace (7 <=? n)%Z with false by lia.
    replace (4 <=? n)%Z with true by lia. reflexivity.
  - replace (7 <=? n)%Z with false by lia.
    replace (4 <=? n)%Z with false by lia.
    replace (2 <=? n)%Z with true by lia. reflexivity.
  - subst n. reflexivity.
Qed.

Lemma length_multiplier_tiers_witness :
  lengthDiscountOf
    (nightsOf (rt := UtcRuntime.runtime) "2024-06-10" "2024-06-13") = 0.95
  /\ lengthDiscountOf
       (nightsOf (rt := UtcRuntime.runtime) "2024-06-10" "2024-06-16") = 0.9.
Proof.
  split.
  - apply (proj1 (proj2 (proj2 (length_multiplier_tiers 3 eq_refl)))). lia.
  - apply (proj1 (proj2 (length_multiplier_tiers 6 eq_refl))). lia.
Defined.

End HotelMultipliers.

(* ================================================================== *)
(** * Hotel: what the effect reports *)
(* ================================================================== *)

Section HotelFacts.

Import Js HiltonProperties HotelSelector.

Context {rt : Runtime}.

Lemma isMajorCity_spec (p : Property) :
  (if (city p =? "")%string then false
   else includes majorCities (city p)) = Spec.isMajorCity p.
Proof.
  destruct (city p =? "")%string eqn:E; [|reflexivity].
  apply String.eqb_eq in E. unfold Spec.isMajorCity. rewrite E. reflexivity.
Qed.

Lemma hasResortFee_spec (p : Property) :
  includes (amenities p) "Pool" || includes (amenities p) "Spa Services"
  = Spec.hasResortFee p.
Proof. reflexivity. Qed.

Lemma dates_present (checkIn checkOut : string) :
  checkIn <> ""%string -> checkOut <> ""%string ->
  (checkIn =? "")%string || (checkOut =? "")%string = false.
Proof.
  intros Hin Hout. apply String.eqb_neq in Hin, Hout.
  rewrite Hin, Hout. reflexivity.
Qed.

Lemma calculateCashPrice_nights (p : Property) (basePrice : Q)
    (checkIn checkOut : string) (rooms n : Q) :
  checkIn <> ""%string -> checkOut <> ""%string ->
  nightsOf checkIn checkOut = Num n -> 0 < n ->
  calculateCashPrice (Some p) basePrice checkIn checkOut rooms
  =j= Num (Spec.hotelCash p basePrice
             (seasonalRateOf (getMonth (newDate checkIn)))
             (lengthDiscountOf (Num n)) n rooms).
Proof.
  intros Hin Hout Hn Hpos. unfold calculateCashPrice.
  rewrite (dates_present _ _ Hin Hout), Hn.
  assert (Hle : (Num n <=? Num 0)%js = false).
  { simpl. destruct (Qle_bool n 0) eqn:E; [|reflexivity].
    apply Qle_bool_iff in E. lra. }
  rewrite Hle. cbv zeta. rewrite isMajorCity_spec, hasResortFee_spec.
  unfold Spec.hotelCash, Spec.roomCost, Spec.hotelFees, Spec.hotelTaxes.
  unfold HOTEL_FEES.resortFee, HOTEL_FEES.serviceFee, HOTEL_FEES.amenityFee,
         HOTEL_FEES.destinationFee, TAX_RATES.roomTax,
         TAX_RATES.occupancyTax, TAX_RATES.cityTax, TAX_RATES.tourismLevy.
  destruct (Spec.isMajorCity p), (Spec.hasResortFee p); simpl; ring.
Qed.

Lemma calculateCashPrice_no_stay (sel : option Property) (basePrice : Q)
    (checkIn checkOut : string) (rooms : Q) :
  checkIn = ""%string \/ checkOut = ""%string
  \/ (nightsOf checkIn checkOut <=? Num 0)%js = true ->
  calculateCashPrice sel basePrice checkIn checkOut rooms = Num 0.
Proof.
  intros [Hin | [Hout | Hn]]; unfold calculateCashPrice.
  - rewrite Hin. reflexivity.
  - rewrite Hout, orb_true_r. reflexivity.
  - destruct (_ || _); [reflexivity|]. rewrite Hn. reflexivity.
Qed.

Lemma costUpdate_selected (table : list Property) (d : Details)
    (p : Property) :
  selectedPropertyOf table d = Some p ->
  costUpdate table d
  = {| cashPrice :=
         calculateCashPrice (Some p) (basePrice p) (checkIn d)
                            (checkOut d) (rooms d);
       pointsSavings :=
         calculatePointsSavings (points d)
           (calculateCashPrice (Some p) (basePrice p) (checkIn d)
                               (checkOut d) (rooms d)) |}.
Proof. intros Hsel. unfold costUpdate. rewrite Hsel. reflexivity. Qed.

Lemma costUpdate_unselected (table : list Property) (d : Details) :
  selectedPropertyOf table d = None ->
  costUpdate table d = {| cashPrice := Num 0; pointsSavings := Num 0 |}.
Proof. intros Hsel. unfold costUpdate. rewrite Hsel. reflexivity. Qed.

Lemma selectedPropertyOf_In (table : list Property) (d : Details)
    (p : Property) :
  selectedPropertyOf table d = Some p -> In p table.
Proof.
  unfold selectedPropertyOf. destruct (property d =? "")%string.
  - discriminate.
  - intros Hfind. apply find_some in Hfind. tauto.
Qed.

End HotelFacts.

(* ================================================================== *)
(** * Hotel: the price formula and the points cap *)
(* ================================================================== *)

Section HotelFormula.

Import Js HiltonProperties HotelSelector.

Context {rt : Runtime}.

(** C2.  For a selected property and dates that are present and give
    [nights > 0], the reported [cashPrice] is, without any rounding,
    [roomCost + fees + taxes]: [roomCost] is base price times seasonal
    multiplier times length multiplier times nights times rooms, the fees
    are [(10 + 15 + 35 if Pool or Spa Services + 20 if major city)] per
    night and room, and the taxes are 14.5%, 3.5% and 1.0% of [roomCost]
    plus 2.0% of [roomCost] in a major city.  The seasonal multiplier is the
    one selected for the check-in month, which for a month 0..11 is the
    table of the specification. *)
Theorem hotel_cashPrice_formula
    (table : list Property) (d : Details) (p : Property) (nights : Z) :
  selectedPropertyOf table d = Some p ->
  checkIn d <> ""%string -> checkOut d <> ""%string ->
  nightsOf (checkIn d) (checkOut d) = Num (inject_Z nights) ->
  (0 < nights)%Z ->
  cashPrice (costUpdate table d)
  =j= Num (Spec.hotelCash p (basePrice p)
             (seasonalRateOf (getMonth (newDate (checkIn d))))
             (Spec.lengthMultiplier nights)
             (inject_Z nights) (rooms d))
  /\ (forall month : Z,
        getMonth (newDate (checkIn d)) = Num (inject_Z month) ->
        (0 <= month <= 11)%Z ->
        cashPrice (costUpdate table d)
        =j= Num (Spec.hotelCash p (basePrice p)
                   (Spec.seasonalMultiplier month)
                   (Spec.lengthMultiplier nights)
                   (inject_Z nights) (rooms d))).
Proof.
  intros Hsel Hin Hout Hn Hpos.
  assert (Hcash :
    cashPrice (costUpdate table d)
    =j= Num (Spec.hotelCash p (basePrice p)
               (seasonalRateOf (getMonth (newDate (checkIn d))))
               (Spec.lengthMultiplier nights)
               (inject_Z nights) (rooms d))).
  { rewrite (costUpdate_selected table d p Hsel). simpl cashPrice.
    rewrite <- (lengthDiscountOf_inject nights).
    apply calculateCashPrice_nights; try assumption.
    change 0 with (inject_Z 0). rewrite <- Zlt_Qlt. exact Hpos. }
  split; [exact Hcash|].
  intros month Hmonth Hrange.
  rewrite <- (seasonalRateOf_spec month Hrange), <- Hmonth. exact Hcash.
Qed.

(** With a finite positive number of nights the cash price is finite. *)
Lemma calculateCashPrice_finite (p : Property) (basePrice : Q)
    (checkIn checkOut : string) (rooms n : Q) :
  checkIn <> ""%string -> checkOut <> ""%string ->
  nightsOf checkIn checkOut = Num n -> 0 < n ->
  exists c, calculateCashPrice (Some p) basePrice checkIn checkOut rooms
            = Num c.
Proof.
  intros Hin Hout Hn Hpos.
  pose proof (calculateCashPrice_nights p basePrice checkIn checkOut rooms
                n Hin Hout Hn Hpos) as Hsame.
  destruct (calculateCashPrice (Some p) basePrice checkIn checkOut rooms)
    as [|c]; [contradiction|]. exists c. reflexivity.
Qed.

(** The points value on a finite balance and a finite price. *)
Lemma calculatePointsSavings_finite (points : string) (pts c : Q) :
  Number points = Num pts ->
  exists q, calculatePointsSavings points (Num c)
            = Num (Math_min (q * 0.005) (c * 0.8))
            /\ q == pts.
Proof.
  intros Hpts. unfold calculatePointsSavings, or_else. rewrite Hpts.
  simpl truthy. destruct (Qeq_bool pts 0) eqn:E; simpl.
  - exists 0. split; [reflexivity|].
    apply Qeq_bool_iff in E. symmetry. exact E.
  - exists pts. split; reflexivity.
Qed.

(** C5.  For a selected property, dates that are present and give
    [nights > 0], and a points string that converts to a number
    [pts >= 0], the reported [pointsSavings] is at most
    [cashPrice * 0.8] and at most [pts * 0.005]. *)
Theorem hotel_points_cap
    (table : list Property) (d : Details) (p : Property) (n pts : Q) :
  selectedPropertyOf table d = Some p ->
  checkIn d <> ""%string -> checkOut d <> ""%string ->
  nightsOf (checkIn d) (checkOut d) = Num n -> 0 < n ->
  Number (points d) = Num pts -> 0 <= pts ->
  Js.le (pointsSavings (costUpdate table d))
        (cashPrice (costUpdate table d) * Num 0.8)%js
  /\ Js.le (pointsSavings (costUpdate table d)) (Num pts * Num 0.005)%js.
Proof.
  intros Hsel Hin Hout Hn Hpos Hpts Hnonneg.
  rewrite (costUpdate_selected table d p Hsel). simpl.
  destruct (calculateCashPrice_finite p (basePrice p) (checkIn d)
              (checkOut d) (rooms d) n Hin Hout Hn Hpos) as [c Hc].
  rewrite Hc.
  destruct (calculatePointsSavings_finite (points d) pts c Hpts)
    as (q & Hq & Heq).
  rewrite Hq. simpl. split.
  - apply Math_min_r.
  - pose proof (Math_min_l (q * 0.005) (c * 0.8)). lra.
Qed.

End HotelFormula.

Section HotelFormulaExamples.

Import Js HiltonProperties HotelSelector.

(** Three June nights in one room at base price 100, outside the major
    cities and without pool or spa: 399 for the room, 75 in fees and 75.81
    in taxes. *)
Lemma hotel_cashPrice_formula_witness :
  cashPrice (costUpdate (rt := UtcRuntime.runtime)
               Sample.expandedHiltonProperties
               (Sample.stay "boise-lodge" "2024-06-10" "2024-06-13" 1
                            "50000"))
  =j= Num (Spec.hotelCash Sample.lodge 100 (Spec.seasonalMultiplier 5)
             (Spec.lengthMultiplier 3) 3 1)
  /\ Spec.hotelCash Sample.lodge 100 (Spec.seasonalMultiplier 5)
       (Spec.lengthMultiplier 3) 3 1 == 549.81.
Proof.
  split; [|reflexivity].
  refine (proj2 (hotel_cashPrice_formula (rt := UtcRuntime.runtime)
                   Sample.expandedHiltonProperties
                   (Sample.stay "boise-lodge" "2024-06-10" "2024-06-13" 1
                                "50000")
                   Sample.lodge 3%Z _ _ _ _ _) 5%Z _ _).
  - reflexivity.
  - discriminate.
  - discriminate.
  - reflexivity.
  - lia.
  - reflexivity.
  - lia.
Defined.

Lemma hotel_points_cap_witness :
  let r := costUpdate (rt := UtcRuntime.runtime)
             Sample.expandedHiltonProperties
             (Sample.stay "boise-lodge" "2024-06-10" "2024-06-13" 1
                          "50000") in
  Js.le (pointsSavings r) (cashPrice r * Num 0.8)%js
  /\ Js.le (pointsSavings r) (Num 50000 * Num 0.005)%js.
Proof.
  apply (hotel_points_cap (rt := UtcRuntime.runtime)
           Sample.expandedHiltonProperties
           (Sample.stay "boise-lodge" "2024-06-10" "2024-06-13" 1 "50000")
           Sample.lodge 3 50000).
  - reflexivity.
  - discriminate.
  - discriminate.
  - reflexivity.
  - reflexivity.
  - reflexivity.
  - discriminate.
Defined.

End HotelFormulaExamples.

(* ================================================================== *)
(** * Degenerate selections, sign of the price, negative balances *)
(* ================================================================== *)

Section BothEngines.

Import Js.

Context {rt : Runtime}.

Lemma leb_le (a b : number) : (a <=? b)%js = true <-> Js.le a b.
Proof.
  destruct a as [|x], b as [|y]; simpl; try (split; [discriminate|tauto]).
  apply Qle_bool_iff.
Qed.

Lemma calculatePointsSavings_zero (points : string) :
  HotelSelector.notNegative points ->
  HotelSelector.calculatePointsSavings points (Num 0) =j= Num 0.
Proof.
  unfold HotelSelector.notNegative, HotelSelector.calculatePointsSavings, or_else.
  intros Hpts. destruct (Number points) as [|q]; simpl.
  - reflexivity.
  - simpl in Hpts. destruct (Qeq_bool q 0); simpl.
    + reflexivity.
    + destruct (Math_min_cases (q * 0.005) (0 * 0.8)) as [[H1 ->]|[H1 ->]];
        lra.
Qed.

(** C6.  The car memo returns [cashPrice = 0] and [pointsSavings = 0] when
    the company is empty, not in the table, or [days <= 0].  The hotel
    effect reports [cashPrice = 0] and [pointsSavings = 0] when no property
    is selected; and, for a points string that does not convert to a
    negative number, when a date is missing or [nights <= 0].  Both are
    total functions: no fault is raised. *)
Theorem zero_cost_result
    (carRentals : list TravelData.CarRental)
    (cd : CarRentalSelector.Details) (points : float)
    (table : list HiltonProperties.Property) (hd : HotelSelector.Details) :
  (CarRentalSelector.company cd = ""%string
   \/ (CarRentalSelector.days cd <=? 0)%float = true
   \/ CarRentalSelector.findRental carRentals cd = None ->
   CarRentalSelector.cashPrice
     (CarRentalSelector.costs carRentals cd points) = 0%float
   /\ CarRentalSelector.pointsSavings
        (CarRentalSelector.costs carRentals cd points) = 0%float)
  /\ (HotelSelector.selectedPropertyOf table hd = None ->
      HotelSelector.cashPrice (HotelSelector.costUpdate table hd) = Num 0
      /\ HotelSelector.pointsSavings (HotelSelector.costUpdate table hd)
         = Num 0)
  /\ (HotelSelector.checkIn hd = ""%string
      \/ HotelSelector.checkOut hd = ""%string
      \/ Js.le (HotelSelector.nightsOf (HotelSelector.checkIn hd)
                                       (HotelSelector.checkOut hd))
               (Num 0) ->
      HotelSelector.notNegative (HotelSelector.points hd) ->
      HotelSelector.cashPrice (HotelSelector.costUpdate table hd) = Num 0
      /\ HotelSelector.pointsSavings (HotelSelector.costUpdate table hd)
         =j= Num 0).
Proof.
  split; [|split].
  - intros Hzero. rewrite (costs_zero carRentals cd points Hzero).
    split; reflexivity.
  - intros Hsel. rewrite (costUpdate_unselected table hd Hsel).
    split; reflexivity.
  - intros Hstay Hpts.
    destruct (HotelSelector.selectedPropertyOf table hd) as [p|] eqn:Hsel.
    + rewrite (costUpdate_selected table hd p Hsel). simpl.
      rewrite calculateCashPrice_no_stay.
      * split; [reflexivity|]. apply calculatePointsSavings_zero.
        exact Hpts.
      * rewrite leb_le. exact Hstay.
    + rewrite (costUpdate_unselected table hd Hsel).
      split; reflexivity.
Qed.

End BothEngines.

Section ZeroCostExamples.

Import Js.

Lemma zero_cost_result_witness :
  (let c := CarRentalSelector.costs SampleCars.carRentals
              (SampleCars.car "Beta" "economy" (-2)) 10000 in
   CarRentalSelector.cashPrice c = 0%float
   /\ CarRentalSelector.pointsSavings c = 0%float)
  /\ (let r := HotelSelector.costUpdate (rt := UtcRuntime.runtime)
                 Sample.expandedHiltonProperties
                 (Sample.stay "nyc-plaza" "2024-06-13" "2024-06-10" 1
                              "50000") in
      HotelSelector.cashPrice r = Num 0
      /\ HotelSelector.pointsSavings r =j= Num 0).
Proof.
  pose proof (zero_cost_result (rt := UtcRuntime.runtime)
                SampleCars.carRentals
                (SampleCars.car "Beta" "economy" (-2)) 10000
                Sample.expandedHiltonProperties
                (Sample.stay "nyc-plaza" "2024-06-13" "2024-06-10" 1
                             "50000")) as (Hcar & _ & Hhotel).
  split.
  - apply Hcar. right. left. reflexivity.
  - apply Hhotel.
    + right. right. discriminate.
    + intros Hneg. discriminate Hneg.
Defined.

End ZeroCostExamples.

Section PriceSign.

Import Js HiltonProperties HotelSelector.

Context {rt : Runtime}.

Lemma hotelCash_nonneg (p : Property) (basePrice s l n rooms : Q) :
  0 <= basePrice -> 0 <= s -> 0 <= l -> 0 <= n -> 0 <= rooms ->
  0 <= Spec.hotelCash p basePrice s l n rooms.
Proof.
  intros Hb Hs Hl Hn Hr.
  unfold Spec.hotelCash, Spec.roomCost, Spec.hotelFees, Spec.hotelTaxes.
  cbv zeta.
  assert (Hroom : 0 <= basePrice * s * l * n * rooms).
  { repeat apply Qmult_le_0_compat; assumption. }
  assert (Hnr : 0 <= n * rooms) by (apply Qmult_le_0_compat; assumption).
  set (room := basePrice * s * l * n * rooms) in *.
  assert (Hfees : forall k, 0 <= k -> 0 <= k * n * rooms).
  { intros k Hk. rewrite <- Qmult_assoc.
    apply Qmult_le_0_compat; assumption. }
  destruct (Spec.hasResortFee p), (Spec.isMajorCity p);
    match goal with
    | |- context [?k * n * rooms] =>
      pose proof (Hfees k ltac:(lra))
    end; lra.
Qed.

Lemma calculateCashPrice_nonneg (p : Property) (basePrice : Q)
    (checkIn checkOut : string) (rooms : Q) :
  0 <= basePrice -> 0 <= rooms ->
  checkIn = ""%string \/ checkOut = ""%string
  \/ (exists n, nightsOf checkIn checkOut = Num n) ->
  Js.le (Num 0)
        (calculateCashPrice (Some p) basePrice checkIn checkOut rooms).
Proof.
  intros Hb Hr Hdates.
  destruct (string_dec checkIn "") as [Hin | Hin].
  { rewrite calculateCashPrice_no_stay by (left; exact Hin).
    simpl. lra. }
  destruct (string_dec checkOut "") as [Hout | Hout].
  { rewrite calculateCashPrice_no_stay by (right; left; exact Hout).
    simpl. lra. }
  destruct Hdates as [Hin' | [Hout' | [n Hn]]]; try contradiction.
  destruct (Qlt_le_dec 0 n) as [Hpos | Hneg].
  - pose proof (calculateCashPrice_nights p basePrice checkIn checkOut
                  rooms n Hin Hout Hn Hpos) as Hsame.
    destruct (calculateCashPrice (Some p) basePrice checkIn checkOut rooms)
      as [|c]; [contradiction|].
    simpl in *. rewrite Hsame. apply hotelCash_nonneg; try assumption.
    + apply Qlt_le_weak, seasonalRateOf_pos.
    + apply Qlt_le_weak, lengthDiscountOf_pos.
    + lra.
  - rewrite calculateCashPrice_no_stay.
    + simpl. lra.
    + right. right. rewrite Hn. simpl. apply Qle_bool_iff. exact Hneg.
Qed.

(** C3 (amended).  The car memo returns [cashPrice >= 0] whenever the
    base price and the multipliers of every row of the table are finite
    and not negative, [days] is a finite number, and the category is not a
    property name of [Object.prototype].  The hotel effect reports
    [cashPrice >= 0] whenever no property has a negative base price, the
    room count is not negative, and the dates are missing or both
    valid. *)
Theorem cashPrice_nonneg
    (carRentals : list TravelData.CarRental)
    (cd : CarRentalSelector.Details) (points : float)
    (table : list Property) (hd : Details) :
  ((forall r, In r carRentals -> TravelData.amounts r) ->
   F64.isFinite (CarRentalSelector.days cd) = true ->
   Grouping.inherited (CarRentalSelector.category cd) = false ->
   (0 <=? CarRentalSelector.cashPrice
            (CarRentalSelector.costs carRentals cd points))%float = true)
  /\ ((forall p, In p table -> 0 <= basePrice p) ->
      0 <= rooms hd ->
      checkIn hd = ""%string \/ checkOut hd = ""%string
      \/ (exists n, nightsOf (checkIn hd) (checkOut hd) = Num n) ->
      Js.le (Num 0) (cashPrice (costUpdate table hd))).
Proof.
  split.
  - apply car_cashPrice_nonneg.
  - intros Htable Hrooms Hdates.
    destruct (selectedPropertyOf table hd) as [p|] eqn:Hsel.
    + rewrite (costUpdate_selected table hd p Hsel). simpl.
      apply calculateCashPrice_nonneg; try assumption.
      apply Htable. eapply selectedPropertyOf_In. exact Hsel.
    + rewrite (costUpdate_unselected table hd Hsel). simpl. lra.
Qed.

End PriceSign.

Section PriceSignExamples.

Import Js HiltonProperties HotelSelector.

Lemma cashPrice_nonneg_witness :
  (0 <=? CarRentalSelector.cashPrice
           (CarRentalSelector.costs SampleCars.carRentals
              (SampleCars.car "Beta" "economy" 7) 10000))%float = true
  /\ Js.le (Num 0)
           (cashPrice (costUpdate (rt := UtcRuntime.runtime)
              Sample.expandedHiltonProperties
              (Sample.stay "nyc-plaza" "2024-06-10" "2024-06-13" 2
                           "50000"))).
Proof.
  pose proof (cashPrice_nonneg (rt := UtcRuntime.runtime)
                SampleCars.carRentals
                (SampleCars.car "Beta" "economy" 7) 10000
                Sample.expandedHiltonProperties
                (Sample.stay "nyc-plaza" "2024-06-10" "2024-06-13" 2
                             "50000")) as [Hcar Hhotel].
  split.
  - apply Hcar.
    + intros r Hr. simpl in Hr.
      destruct Hr as [<- | [<- | [<- | [<- | []]]]];
        repeat split; reflexivity.
    + reflexivity.
    + reflexivity.
  - apply Hhotel.
    + intros p Hp. simpl in Hp.
      destruct Hp as [<- | [<- | []]]; discriminate.
    + discriminate.
    + right. right. exists 3. reflexivity.
Defined.

(** C3 as worded fails for a negative room count: three June nights at
    base price 100 with [rooms = -1] are priced at -549.81. *)
Lemma hotel_cashPrice_negative_rooms :
  let r := costUpdate (rt := UtcRuntime.runtime)
             Sample.expandedHiltonProperties
             (Sample.stay "boise-lodge" "2024-06-10" "2024-06-13" (-1)
                          "50000") in
  cashPrice r =j= Num (-549.81)
  /\ ~ Js.le (Num 0) (cashPrice r).
Proof.
  cbv zeta. split.
  - reflexivity.
  - vm_compute. intros Hle. apply Hle. reflexivity.
Qed.

End PriceSignExamples.

(* ================================================================== *)
(** * Order of rounding *)
(* ================================================================== *)

Section RoundingOrder.

Import Js.

Context {rt : Runtime}.

(** C9 (amended).  The car memo takes the minimum on the unrounded cash
    price [raw], the local [cashPrice] of the memo, and rounds both amounts
    only when it returns them: [cashPrice = round2 raw] and
    [pointsSavings = round2 (min (points * 0.008) (raw * 0.5))].  The hotel
    effect never rounds: its [pointsSavings] is
    [min ((Number(points) || 0) * 0.005) (cashPrice * 0.8)] on the very
    [cashPrice] it reports, which for [n > 0] nights is the exact
    [roomCost + fees + taxes]. *)
Theorem points_from_unrounded_cash
    (carRentals : list TravelData.CarRental)
    (cd : CarRentalSelector.Details) (points : float)
    (rental : TravelData.CarRental)
    (table : list HiltonProperties.Property) (hd : HotelSelector.Details)
    (p : HiltonProperties.Property) (n : Q) :
  (CarRentalSelector.company cd <> ""%string ->
   (0 <? CarRentalSelector.days cd)%float = true ->
   CarRentalSelector.findRental carRentals cd = Some rental ->
   let raw := CarRentalSelector.rawCashPrice rental cd in
   CarRentalSelector.cashPrice
     (CarRentalSelector.costs carRentals cd points) = F64.round2 raw
   /\ CarRentalSelector.pointsSavings
        (CarRentalSelector.costs carRentals cd points)
      = F64.round2 (F64.Math_min (points * 0.008)%float
                                 (raw * 0.5)%float))
  /\ (HotelSelector.selectedPropertyOf table hd = Some p ->
      HotelSelector.pointsSavings (HotelSelector.costUpdate table hd)
      = Js.min ((Number (HotelSelector.points hd) || Num 0) * Num 0.005)%js
               (HotelSelector.cashPrice (HotelSelector.costUpdate table hd)
                * Num 0.8)%js
      /\ (HotelSelector.checkIn hd <> ""%string ->
          HotelSelector.checkOut hd <> ""%string ->
          HotelSelector.nightsOf (HotelSelector.checkIn hd)
                                 (HotelSelector.checkOut hd) = Num n ->
          0 < n ->
          HotelSelector.cashPrice (HotelSelector.costUpdate table hd)
          =j= Num (Spec.hotelCash p (HiltonProperties.basePrice p)
                     (HotelSelector.seasonalRateOf
                        (getMonth (newDate (HotelSelector.checkIn hd))))
                     (HotelSelector.lengthDiscountOf (Num n))
                     n (HotelSelector.rooms hd)))).
Proof.
  split.
  - intros Hname Hdays Hfind. cbv zeta.
    destruct (costs_found carRentals cd points rental Hname
                (ltb_zero_not_leb _ Hdays) Hfind) as (Hcash & Hpts & _).
    split; assumption.
  - intros Hsel. rewrite (costUpdate_selected table hd p Hsel). simpl.
    split; [reflexivity|].
    intros Hin Hout Hn Hpos. apply calculateCashPrice_nights; assumption.
Qed.

End RoundingOrder.

Section RoundingOrderExamples.

Import Js.

Lemma points_from_unrounded_cash_witness :
  (let d := SampleCars.car "Beta" "economy" 1 in
   let c := CarRentalSelector.costs SampleCars.carRentals d 10000 in
   let raw := CarRentalSelector.rawCashPrice
                (SampleCars.rental "Beta" 25 SampleCars.standard) d in
   CarRentalSelector.cashPrice c = F64.round2 raw
   /\ CarRentalSelector.pointsSavings c
      = F64.round2 (F64.Math_min (10000 * 0.008)%float (raw * 0.5)%float))
  /\ (let r := HotelSelector.costUpdate (rt := UtcRuntime.runtime)
                 Sample.expandedHiltonProperties
                 (Sample.stay "nyc-plaza" "2024-06-10" "2024-06-13" 1
                              "50000") in
      HotelSelector.pointsSavings r
      = Js.min (Num 50000 * Num 0.005)%js
               (HotelSelector.cashPrice r * Num 0.8)%js
      /\ HotelSelector.cashPrice r
         =j= Num (Spec.hotelCash Sample.plaza 200 1.4 0.95 3 1)).
Proof.
  pose proof (points_from_unrounded_cash (rt := UtcRuntime.runtime)
                SampleCars.carRentals
                (SampleCars.car "Beta" "economy" 1) 10000
                (SampleCars.rental "Beta" 25 SampleCars.standard)
                Sample.expandedHiltonProperties
                (Sample.stay "nyc-plaza" "2024-06-10" "2024-06-13" 1
                             "50000")
                Sample.plaza 3) as [Hcar Hhotel].
  split.
  - apply Hcar.
    + discriminate.
    + reflexivity.
    + reflexivity.
  - destruct (Hhotel eq_refl) as [Hpts Hcash]. split.
    + exact Hpts.
    + apply Hcash.
      * discriminate.
      * discriminate.
      * reflexivity.
      * reflexivity.
Defined.

(** C9 as worded fails: one day of economy at base price 25 with 10000
    points.  The memo returns [cashPrice = 95.43] and
    [pointsSavings = 47.71], the rounded half of the unrounded price,
    whereas rounding the price first would give the rounded half of 95.43,
    that is 47.72. *)
Lemma car_points_not_from_rounded_cash :
  let d := SampleCars.car "Beta" "economy" 1 in
  let c := CarRentalSelector.costs SampleCars.carRentals d 10000 in
  let raw := CarRentalSelector.rawCashPrice
               (SampleCars.rental "Beta" 25 SampleCars.standard) d in
  CarRentalSelector.findRental SampleCars.carRentals d
  = Some (SampleCars.rental "Beta" 25 SampleCars.standard)
  /\ (0 <? CarRentalSelector.days d)%float = true
  /\ CarRentalSelector.cashPrice c = 95.43%float
  /\ F64.round2 raw = 95.43%float
  /\ CarRentalSelector.pointsSavings c = 47.71%float
  /\ F64.round2 (F64.Math_min (10000 * 0.008)%float
                              (F64.round2 raw * 0.5)%float)
     = 47.72%float
  /\ CarRentalSelector.pointsSavings c
     <> F64.round2 (F64.Math_min (10000 * 0.008)%float
                                 (F64.round2 raw * 0.5)%float).
Proof.
  cbv zeta. repeat split; try (vm_compute; reflexivity).
  intros Heq.
  apply (f_equal (fun x => (x =? 47.71)%float)) in Heq.
  vm_compute in Heq. discriminate Heq.
Qed.

End RoundingOrderExamples.

(* ================================================================== *)
(** * Negative balances *)
(* ================================================================== *)

Section NegativeBalance.

Import Js.

Context {rt : Runtime}.

(** Hotel: any negative balance against a positive price gives a negative
    value. *)
Lemma hotel_negative_points (points : string) (pts c : Q) :
  Number points = Num pts -> pts < 0 -> 0 < c ->
  Js.lt (HotelSelector.calculatePointsSavings points (Num c)) (Num 0).
Proof.
  intros Hpts Hneg Hc.
  destruct (calculatePointsSavings_finite points pts c Hpts)
    as (q & Hq & Heq).
  rewrite Hq. simpl.
  eapply Qle_lt_trans; [apply Math_min_l|]. lra.
Qed.

End NegativeBalance.

Section NegativeBalanceExamples.

Import Js.

(** C10.  Neither engine clamps the points value at zero: there is a car
    selection (company found, [days > 0], [points < 0]) and a hotel
    selection (property selected, [nights > 0], a points string that
    converts to a negative number) with a positive [cashPrice], a strictly
    negative [pointsSavings], and a final cost above [cashPrice]. *)
Theorem negative_points_negative_savings :
  (exists (carRentals : list TravelData.CarRental)
          (cd : CarRentalSelector.Details) (points : float)
          (rental : TravelData.CarRental),
      let c := CarRentalSelector.costs carRentals cd points in
      CarRentalSelector.company cd <> ""%string
      /\ CarRentalSelector.findRental carRentals cd = Some rental
      /\ (0 <? CarRentalSelector.days cd)%float = true
      /\ (points <? 0)%float = true
      /\ (0 <? CarRentalSelector.cashPrice c)%float = true
      /\ (CarRentalSelector.pointsSavings c <? 0)%float = true
      /\ (CarRentalSelector.cashPrice c
          <? CarRentalSelector.finalCost c)%float = true)
  /\ (exists (rt : Runtime) (table : list HiltonProperties.Property)
             (hd : HotelSelector.Details) (p : HiltonProperties.Property),
         let r := HotelSelector.costUpdate table hd in
         HotelSelector.selectedPropertyOf table hd = Some p
         /\ Js.lt (Num 0)
                  (HotelSelector.nightsOf (HotelSelector.checkIn hd)
                                          (HotelSelector.checkOut hd))
         /\ Js.lt (Number (HotelSelector.points hd)) (Num 0)
         /\ Js.lt (Num 0) (HotelSelector.cashPrice r)
         /\ Js.lt (HotelSelector.pointsSavings r) (Num 0)
         /\ Js.lt (HotelSelector.cashPrice r) (HotelSelector.finalCost r)).
Proof.
  split.
  - exists SampleCars.carRentals, (SampleCars.car "Gamma" "economy" 1),
           (-1)%float, (SampleCars.rental "Gamma" 40 SampleCars.standard).
    cbv zeta. repeat split; try (vm_compute; reflexivity). discriminate.
  - exists UtcRuntime.runtime, Sample.expandedHiltonProperties,
           (Sample.stay "nyc-plaza" "2024-06-10" "2024-06-13" 1 "-2000"),
           Sample.plaza.
    cbv zeta. repeat split; reflexivity.
Qed.

End NegativeBalanceExamples.

(* ================================================================== *)
(** * Car rental: the breakdown *)
(* ================================================================== *)

Section CarRentalBreakdown.

Import TravelData CarRentalSelector.

Variable carRentals : list CarRental.

(** What the breakdown holds when there is one. *)
Lemma costs_details_inv (d : Details) (points : float) (b : RateDetails) :
  details (costs carRentals d points) = Some b ->
  company d <> ""%string /\ (days d <=? 0)%float = false
  /\ exists rental,
       findRental carRentals d = Some rental
       /\ baseRate b
          = (basePrice rental
             * toNumber (or_default (category_get (categories rental)
                                                  (category d)) 1))%float
       /\ discount b = SpecCar.carDiscount (days d)
       /\ fees b = (15 * days d + 25 + 8.50 + 12)%float
       /\ taxes b
          = ((baseRate b * days d * (1 - discount b) + fees b) * 0.0825
             + baseRate b * days d * 0.115)%float.
Proof.
  unfold costs.
  destruct (company d =? "")%string eqn:Ename; [discriminate|].
  destruct (days d <=? 0)%float eqn:Edays; [discriminate|].
  destruct (findRental carRentals d) as [rental|] eqn:Efind; [|discriminate].
  simpl. intros Hb. injection Hb as <-.
  split; [apply String.eqb_neq; exact Ename|]. split; [reflexivity|].
  exists rental. repeat split; reflexivity.
Qed.

(** X1.  The memo returns a breakdown exactly when the company name is not
    empty, [days <= 0] is false and the company is in the table; so
    whenever the panel is shown for a company of the table, the breakdown
    it prints exists. *)
Theorem car_breakdown_present_iff (d : Details) (points : float) :
  (details (costs carRentals d points) <> None
   <-> company d <> ""%string /\ (days d <=? 0)%float = false
       /\ findRental carRentals d <> None)
  /\ (CarRentalPanel.shown d = true ->
      findRental carRentals d <> None ->
      details (costs carRentals d points) <> None).
Proof.
  assert (Hiff : details (costs carRentals d points) <> None
                 <-> company d <> ""%string /\ (days d <=? 0)%float = false
                     /\ findRental carRentals d <> None).
  { split.
    - intros Hsome.
      destruct (details (costs carRentals d points)) as [b|] eqn:Eb;
        [|contradiction].
      destruct (costs_details_inv d points b Eb)
        as (Hname & Hdays & rental & Hfind & _).
      repeat split; try assumption. rewrite Hfind. discriminate.
    - intros (Hname & Hdays & Hfind).
      destruct (findRental carRentals d) as [rental|] eqn:Efind;
        [|contradiction].
      apply (costs_found carRentals d points rental Hname Hdays Efind). }
  split; [exact Hiff|].
  intros Hshown Hfind. apply Hiff. unfold CarRentalPanel.shown in Hshown.
  apply andb_prop in Hshown as [Hshown Hdays].
  apply andb_prop in Hshown as [Hname _].
  repeat split; try assumption.
  - apply String.eqb_neq. destruct (company d =? "")%string;
      [discriminate | reflexivity].
  - apply ltb_zero_not_leb. exact Hdays.
Qed.

(** X2.  A returned breakdown adds up to the returned price, in binary64
    and in the order in which the memo adds: [cashPrice] is
    [baseRate * days * (1 - discount) + fees + taxes] rounded to cents,
    [fees] is [15 * days + 25 + 8.50 + 12], [taxes] is 8.25% of the
    discounted rental plus fees and 11.5% of the undiscounted rental, and
    [discount] is one of 0, 0.10, 0.15. *)
Theorem car_breakdown_adds_up
    (d : Details) (points : float) (b : RateDetails) :
  details (costs carRentals d points) = Some b ->
  cashPrice (costs carRentals d points)
  = F64.round2 (baseRate b * days d * (1 - discount b) + fees b + taxes b)
  /\ fees b = (15 * days d + 25 + 8.50 + 12)%float
  /\ taxes b
     = ((baseRate b * days d * (1 - discount b) + fees b) * 0.0825
        + baseRate b * days d * 0.115)%float
  /\ (discount b = 0%float \/ discount b = 0.10%float
      \/ discount b = 0.15%float).
Proof.
  intros Hb.
  destruct (costs_details_inv d points b Hb)
    as (Hname & Hdays & rental & Hfind & Hrate & Hdisc & Hfees & Htaxes).
  destruct (costs_found carRentals d points rental Hname Hdays Hfind)
    as [Hcash _].
  split; [|split; [|split]].
  - rewrite Hcash. f_equal.
    rewrite Htaxes, Hfees, Hdisc, Hrate. reflexivity.
  - exact Hfees.
  - exact Htaxes.
  - rewrite Hdisc. unfold SpecCar.carDiscount.
    destruct (7 <=? days d)%float; [right; right; reflexivity|].
    destruct (3 <=? days d)%float; [right; left; reflexivity|].
    left. reflexivity.
Qed.

End CarRentalBreakdown.

Section CarRentalBreakdownExamples.

Import TravelData CarRentalSelector.

Lemma car_breakdown_present_iff_witness :
  details (costs SampleCars.carRentals (SampleCars.car "Beta" "suv" 4) 0)
  <> None.
Proof.
  apply (proj2 (car_breakdown_present_iff SampleCars.carRentals
                  (SampleCars.car "Beta" "suv" 4) 0)).
  - reflexivity.
  - discriminate.
Defined.

Lemma car_breakdown_adds_up_witness :
  let b := {| baseRate := 25 * 1.7; discount := 0.10;
              fees := 15 * 4 + 25 + 8.50 + 12;
              taxes := (25 * 1.7 * 4 * (1 - 0.10)
                        + (15 * 4 + 25 + 8.50 + 12)) * 0.0825
                       + 25 * 1.7 * 4 * 0.115 |} in
  let c := costs SampleCars.carRentals (SampleCars.car "Beta" "suv" 4) 0 in
  details c = Some b
  /\ cashPrice c
     = F64.round2 (baseRate b * 4 * (1 - discount b) + fees b + taxes b).
Proof.
  cbv zeta. split; [reflexivity|].
  exact (proj1 (car_breakdown_adds_up SampleCars.carRentals
                  (SampleCars.car "Beta" "suv" 4) 0 _ eq_refl)).
Defined.

(** The same rental in figures. *)
Example car_breakdown_suv :
  let c := costs SampleCars.carRentals (SampleCars.car "Beta" "suv" 4) 0 in
  cashPrice c = 299.38%float /\ pointsSavings c = 0%float
  /\ option_map baseRate (details c) = Some 42.5%float
  /\ option_map fees (details c) = Some 105.5%float.
Proof. cbv zeta. repeat split; vm_compute; reflexivity. Qed.

End CarRentalBreakdownExamples.

(* ================================================================== *)
(** * Hotel: longer stays, larger balances *)
(* ================================================================== *)

Section HotelOrder.

Import Js HiltonProperties HotelSelector.

Context {rt : Runtime}.

(** The stay splits into a part proportional to the nightly rate and the
    fees. *)
Lemma hotelCash_split (p : Property) (basePrice s l n rooms : Q) :
  Spec.hotelCash p basePrice s l n rooms
  == basePrice * s * rooms * (l * n)
       * (1 + 0.145 + 0.035 + 0.01
          + (if Spec.isMajorCity p then 0.02 else 0))
     + (10 + 15 + (if Spec.hasResortFee p then 35 else 0)
        + (if Spec.isMajorCity p then 20 else 0)) * rooms * n.
Proof.
  unfold Spec.hotelCash, Spec.roomCost, Spec.hotelFees, Spec.hotelTaxes.
  cbv zeta. destruct (Spec.isMajorCity p), (Spec.hasResortFee p); ring.
Qed.

(** The length tier of a whole number of nights. *)
Lemma lengthMultiplier_tier (n : Z) :
  (1 <= n)%Z ->
  (Spec.lengthMultiplier n = 1 /\ inject_Z n == 1)
  \/ (Spec.lengthMultiplier n = 0.95 /\ 2 <= inject_Z n <= 3)
  \/ (Spec.lengthMultiplier n = 0.9 /\ 4 <= inject_Z n <= 6)
  \/ (Spec.lengthMultiplier n = 0.85 /\ 7 <= inject_Z n).
Proof.
  intros Hn. unfold Spec.lengthMultiplier.
  destruct (Z.leb_spec 7 n) as [H7 | H7].
  { right. right. right. split; [reflexivity|].
    assert (Hq : inject_Z 7 <= inject_Z n) by (rewrite <- Zle_Qle; lia).
    exact Hq. }
  destruct (Z.leb_spec 4 n) as [H4 | H4].
  { right. right. left. split; [reflexivity|].
    assert (Hq : inject_Z 4 <= inject_Z n) by (rewrite <- Zle_Qle; lia).
    assert (Hr : inject_Z n <= inject_Z 6) by (rewrite <- Zle_Qle; lia).
    split; [exact Hq | exact Hr]. }
  destruct (Z.leb_spec 2 n) as [H2 | H2].
  { right. left. split; [reflexivity|].
    assert (Hq : inject_Z 2 <= inject_Z n) by (rewrite <- Zle_Qle; lia).
    assert (Hr : inject_Z n <= inject_Z 3) by (rewrite <- Zle_Qle; lia).
    split; [exact Hq | exact Hr]. }
  left. split; [reflexivity|].
  assert (Heq : n = 1%Z) by lia. rewrite Heq. reflexivity.
Qed.

Lemma hotelCash_mono_nights (p : Property) (basePrice s rooms : Q)
    (n1 n2 : Z) :
  0 <= basePrice -> 0 <= s -> 0 <= rooms -> (1 <= n1 <= n2)%Z ->
  Spec.hotelCash p basePrice s (Spec.lengthMultiplier n1) (inject_Z n1) rooms
  <= Spec.hotelCash p basePrice s (Spec.lengthMultiplier n2) (inject_Z n2)
                    rooms.
Proof.
  intros Hb Hs Hr [Hlo Hle]. rewrite !hotelCash_split.
  assert (Hx : inject_Z n1 <= inject_Z n2) by (rewrite <- Zle_Qle; lia).
  assert (Hlen : Spec.lengthMultiplier n1 * inject_Z n1
                 <= Spec.lengthMultiplier n2 * inject_Z n2).
  { destruct (lengthMultiplier_tier n1 Hlo)
      as [[-> H1] | [[-> H1] | [[-> H1] | [-> H1]]]];
      destruct (lengthMultiplier_tier n2 ltac:(lia))
        as [[-> H2] | [[-> H2] | [[-> H2] | [-> H2]]]];
      lra. }
  set (g1 := Spec.lengthMultiplier n1 * inject_Z n1) in *.
  set (g2 := Spec.lengthMultiplier n2 * inject_Z n2) in *.
  assert (Hk : 0 <= basePrice * s * rooms).
  { repeat apply Qmult_le_0_compat; assumption. }
  set (k := basePrice * s * rooms) in *.
  assert (Hprod : k * g1 <= k * g2).
  { rewrite (Qmult_comm k g1), (Qmult_comm k g2).
    apply Qmult_le_compat_r; assumption. }
  assert (Hfee : forall c, 0 <= c ->
                   c * rooms * inject_Z n1 <= c * rooms * inject_Z n2).
  { intros c Hc.
    rewrite (Qmult_comm (c * rooms) (inject_Z n1)),
            (Qmult_comm (c * rooms) (inject_Z n2)).
    apply Qmult_le_compat_r; [exact Hx|].
    apply Qmult_le_0_compat; assumption. }
  assert (Hrate : forall t, 0 <= t -> k * g1 * (1 + t) <= k * g2 * (1 + t)).
  { intros t Ht. apply Qmult_le_compat_r; [exact Hprod | lra]. }
  destruct (Spec.isMajorCity p), (Spec.hasResortFee p);
    match goal with
    | |- _ * (1 + 0.145 + 0.035 + 0.01 + ?e) + ?c * rooms * _ <= _ =>
      pose proof (Hfee c ltac:(lra));
      pose proof (Hrate (0.145 + 0.035 + 0.01 + e) ltac:(lra))
    end; lra.
Qed.

(** X7.  For the same property, check-in date and room count, with a base
    price and room count that are not negative, a check-out that gives more
    nights never gives a lower cash price: the length discounts at 2, 4 and
    7 nights do not overtake the added nights. *)
Theorem hotel_price_monotone_in_nights
    (p : Property) (basePrice : Q) (checkIn out1 out2 : string) (rooms : Q)
    (n1 n2 : Z) :
  0 <= basePrice -> 0 <= rooms ->
  checkIn <> ""%string -> out1 <> ""%string -> out2 <> ""%string ->
  nightsOf checkIn out1 = Num (inject_Z n1) ->
  nightsOf checkIn out2 = Num (inject_Z n2) ->
  (n1 <= n2)%Z ->
  Js.le (calculateCashPrice (Some p) basePrice checkIn out1 rooms)
        (calculateCashPrice (Some p) basePrice checkIn out2 rooms).
Proof.
  intros Hb Hr Hin Ho1 Ho2 Hn1 Hn2 Hle.
  destruct (Z_le_gt_dec n1 0) as [Hzero | Hpos].
  { rewrite (calculateCashPrice_no_stay (Some p) basePrice checkIn out1).
    - apply calculateCashPrice_nonneg; try assumption.
      right. right. exists (inject_Z n2). exact Hn2.
    - right. right. rewrite Hn1. simpl. apply Qle_bool_iff.
      change 0 with (inject_Z 0). rewrite <- Zle_Qle. exact Hzero. }
  assert (Hq1 : 0 < inject_Z n1).
  { change 0 with (inject_Z 0). rewrite <- Zlt_Qlt. lia. }
  assert (Hq2 : 0 < inject_Z n2).
  { change 0 with (inject_Z 0). rewrite <- Zlt_Qlt. lia. }
  pose proof (calculateCashPrice_nights p basePrice checkIn out1 rooms
                (inject_Z n1) Hin Ho1 Hn1 Hq1) as H1.
  pose proof (calculateCashPrice_nights p basePrice checkIn out2 rooms
                (inject_Z n2) Hin Ho2 Hn2 Hq2) as H2.
  destruct (calculateCashPrice (Some p) basePrice checkIn out1 rooms)
    as [|c1]; [contradiction|].
  destruct (calculateCashPrice (Some p) basePrice checkIn out2 rooms)
    as [|c2]; [contradiction|].
  simpl in *. rewrite H1, H2, !lengthDiscountOf_inject.
  apply hotelCash_mono_nights; try assumption.
  - apply Qlt_le_weak, seasonalRateOf_pos.
  - lia.
Qed.

End HotelOrder.

Section HotelOrderExamples.

Import Js HiltonProperties HotelSelector.

(** Six June nights against seven, across the weekly discount. *)
Lemma hotel_price_monotone_in_nights_witness :
  Js.le (calculateCashPrice (rt := UtcRuntime.runtime) (Some Sample.plaza)
           200 "2024-06-10" "2024-06-16" 2)
        (calculateCashPrice (rt := UtcRuntime.runtime) (Some Sample.plaza)
           200 "2024-06-10" "2024-06-17" 2).
Proof.
  apply (hotel_price_monotone_in_nights (rt := UtcRuntime.runtime)
           Sample.plaza 200 "2024-06-10" "2024-06-16" "2024-06-17" 2
           6%Z 7%Z).
  - discriminate.
  - discriminate.
  - discriminate.
  - discriminate.
  - discriminate.
  - reflexivity.
  - reflexivity.
  - lia.
Defined.

End HotelOrderExamples.

Section HotelRoomsAndPoints.

Import Js HiltonProperties HotelSelector.

Context {rt : Runtime}.

(** The points value for a balance that is not negative. *)
Lemma calculatePointsSavings_notNegative (points : string) (c : Q) :
  notNegative points ->
  exists q, 0 <= q
            /\ calculatePointsSavings points (Num c)
               = Num (Math_min (q * 0.005) (c * 0.8)).
Proof.
  unfold notNegative, calculatePointsSavings, or_else.
  destruct (Number points) as [|pts]; simpl.
  - intros _. exists 0. split; [lra | reflexivity].
  - intros Hnn. destruct (Qeq_bool pts 0); simpl.
    + exists 0. split; [lra | reflexivity].
    + exists pts. split; [|reflexivity].
      destruct (Qlt_le_dec pts 0) as [Hlt | Hge]; [contradiction | exact Hge].
Qed.

(** X9.  On a finite cash price, a points string that converts to a larger
    number never gives a smaller points value. *)
Theorem hotel_points_monotone (s1 s2 : string) (a b c : Q) :
  Number s1 = Num a -> Number s2 = Num b -> a <= b ->
  Js.le (calculatePointsSavings s1 (Num c))
        (calculatePointsSavings s2 (Num c)).
Proof.
  intros H1 H2 Hle.
  destruct (calculatePointsSavings_finite s1 a c H1) as (q1 & -> & He1).
  destruct (calculatePointsSavings_finite s2 b c H2) as (q2 & -> & He2).
  simpl. apply Math_min_mono_l. lra.
Qed.

(** X10.  With no negative base price in the table, a room count that is
    not negative, dates that are missing or both valid, and a points string
    that does not convert to a negative number, the final cost lies between
    zero and the reported [cashPrice]: the points never pay more than the
    price, and never add to it. *)
Theorem hotel_final_cost_bounds (table : list Property) (d : Details) :
  (forall p, In p table -> 0 <= basePrice p) ->
  0 <= rooms d ->
  checkIn d = ""%string \/ checkOut d = ""%string
  \/ (exists n, nightsOf (checkIn d) (checkOut d) = Num n) ->
  notNegative (points d) ->
  Js.le (Num 0) (finalCost (costUpdate table d))
  /\ Js.le (finalCost (costUpdate table d)) (cashPrice (costUpdate table d)).
Proof.
  intros Htable Hrooms Hdates Hpts. unfold finalCost.
  destruct (selectedPropertyOf table d) as [p|] eqn:Hsel.
  2:{ rewrite (costUpdate_unselected table d Hsel). simpl. lra. }
  rewrite (costUpdate_selected table d p Hsel). simpl.
  pose proof (calculateCashPrice_nonneg p (basePrice p) (checkIn d)
                (checkOut d) (rooms d)
                (Htable p (selectedPropertyOf_In table d p Hsel))
                Hrooms Hdates) as Hnn.
  destruct (calculateCashPrice (Some p) (basePrice p) (checkIn d)
              (checkOut d) (rooms d)) as [|c]; [contradiction|].
  simpl in Hnn.
  destruct (calculatePointsSavings_notNegative (points d) c Hpts)
    as (q & Hq & ->).
  simpl.
  pose proof (Math_min_r (q * 0.005) (c * 0.8)) as Hhi.
  assert (Hlo : 0 <= Math_min (q * 0.005) (c * 0.8)).
  { apply Math_min_glb; lra. }
  lra.
Qed.


End HotelRoomsAndPoints.

Section HotelRoomsAndPointsExamples.

Import Js HiltonProperties HotelSelector.

Lemma hotel_points_monotone_witness :
  Js.le (calculatePointsSavings (rt := UtcRuntime.runtime) "1000" (Num 500))
        (calculatePointsSavings (rt := UtcRuntime.runtime) "90000"
                                (Num 500)).
Proof.
  apply (hotel_points_monotone (rt := UtcRuntime.runtime)
           "1000" "90000" 1000 90000 500).
  - reflexivity.
  - reflexivity.
  - discriminate.
Defined.

Lemma hotel_final_cost_bounds_witness :
  let r := costUpdate (rt := UtcRuntime.runtime)
             Sample.expandedHiltonProperties
             (Sample.stay "nyc-plaza" "2024-06-10" "2024-06-13" 2 "90000") in
  Js.le (Num 0) (finalCost r)
  /\ Js.le (finalCost r) (cashPrice r).
Proof.
  apply (hotel_final_cost_bounds (rt := UtcRuntime.runtime)
           Sample.expandedHiltonProperties
           (Sample.stay "nyc-plaza" "2024-06-10" "2024-06-13" 2 "90000")).
  - intros p Hp. simpl in Hp.
    destruct Hp as [<- | [<- | []]]; discriminate.
  - discriminate.
  - right. right. exists 3. reflexivity.
  - intros Hneg. discriminate Hneg.
Defined.


End HotelRoomsAndPointsExamples.

(* ================================================================== *)
(** * Hotel panel: the rows against the engine *)
(* ================================================================== *)

Section HotelPanelRows.

Import Js HiltonProperties HotelSelector HotelPanel.

Context {rt : Runtime}.

(** The chain of the row picks the rate that the engine picks. *)
Lemma seasonOf_rate (month : number) :
  fst (seasonOf month) = seasonalRateOf month.
Proof.
  unfold seasonOf, seasonalRateOf.
  destruct ((Num 5 <=? month)%js && (month <=? Num 7)%js); [reflexivity|].
  destruct ((Num 2 <=? month)%js && (month <=? Num 4)%js); [reflexivity|].
  destruct ((Num 11 <=? month)%js || (month <=? Num 1)%js); reflexivity.
Qed.

Lemma seasonOf_name (month : number) :
  snd (seasonOf month) = ""%string <-> seasonalRateOf month == 1.
Proof.
  unfold seasonOf, seasonalRateOf.
  destruct ((Num 5 <=? month)%js && (month <=? Num 7)%js).
  { simpl. split; discriminate. }
  destruct ((Num 2 <=? month)%js && (month <=? Num 4)%js).
  { simpl. split; discriminate. }
  destruct ((Num 11 <=? month)%js || (month <=? Num 1)%js).
  { simpl. split; discriminate. }
  simpl. split; reflexivity.
Qed.

(** X12.  The seasonal adjustment row agrees with the engine.  Without a
    check-in date there is no row.  With one (and a month other than -1)
    the row shows the absolute difference, in percent, between 1 and the
    very multiplier [calculateCashPrice] applies, with "+" exactly for a
    surcharge; in the standard season, where the multiplier is 1, the row
    still appears, with an empty season name, the sign "-" and 0 percent. *)
Theorem season_row_matches_engine (d : Details) :
  (checkIn d = ""%string -> seasonAdjustment d = None)
  /\ (checkIn d <> ""%string ->
      strictNeq (getMonth (newDate (checkIn d))) (Num (-1)) = true ->
      let rate := seasonalRateOf (getMonth (newDate (checkIn d))) in
      exists row,
        seasonAdjustment d = Some row
        /\ percent row = Qabs ((1 - rate) * 100)
        /\ (sign row = "+"%string <-> 1 < rate)
        /\ (seasonName row = ""%string <-> rate == 1)
        /\ (rate == 1 -> sign row = "-"%string /\ percent row == 0)).
Proof.
  split.
  - intros Hin. unfold seasonAdjustment. rewrite Hin. reflexivity.
  - intros Hin Hmonth rate. unfold seasonAdjustment.
    apply String.eqb_neq in Hin. rewrite Hin, Hmonth.
    rewrite seasonOf_rate. fold rate.
    eexists. split; [reflexivity|]. cbn [percent sign seasonName].
    split; [reflexivity|].
    assert (Hsign : (if negb (Qle_bool rate 1) then "+"%string
                     else "-"%string) = "+"%string <-> 1 < rate).
    { destruct (Qle_bool rate 1) eqn:E; simpl.
      - apply Qle_bool_iff in E. split; [discriminate | lra].
      - split; [|reflexivity]. intros _.
        destruct (Qlt_le_dec 1 rate) as [Hlt | Hle]; [exact Hlt|].
        apply Qle_bool_iff in Hle. congruence. }
    split; [exact Hsign|]. split; [apply seasonOf_name|].
    intros Hone. split.
    + destruct (Qle_bool rate 1) eqn:E; [reflexivity|].
      exfalso. assert (Hle : rate <= 1) by lra.
      apply Qle_bool_iff in Hle. congruence.
    + rewrite Hone. reflexivity.
Qed.

(** The discount of the row is the complement of the engine multiplier. *)
Lemma discountOf_complement (nights : number) :
  lengthDiscountOf nights == 1 - discountOf nights.
Proof.
  unfold lengthDiscountOf, discountOf.
  destruct (Num 7 <=? nights)%js; [reflexivity|].
  destruct (Num 4 <=? nights)%js; [reflexivity|].
  destruct (Num 2 <=? nights)%js; reflexivity.
Qed.

Lemma discountOf_positive (nights : number) :
  negb (Qle_bool (discountOf nights) 0) = (Num 2 <=? nights)%js.
Proof.
  unfold discountOf.
  destruct (Num 7 <=? nights)%js eqn:E7.
  { destruct nights as [|n]; [discriminate|]. simpl in *.
    apply Qle_bool_iff in E7. symmetry. apply Qle_bool_iff. lra. }
  destruct (Num 4 <=? nights)%js eqn:E4.
  { destruct nights as [|n]; [discriminate|]. simpl in *.
    apply Qle_bool_iff in E4. symmetry. apply Qle_bool_iff. lra. }
  destruct (Num 2 <=? nights)%js; reflexivity.
Qed.

(** X13.  The nights discount row agrees with the engine.  With both dates
    present, the row appears exactly when [nights >= 2], and its percentage
    is 100 times one minus the length multiplier that [calculateCashPrice]
    applies to the same nights. *)
Theorem nights_row_matches_engine (d : Details) :
  checkIn d <> ""%string -> checkOut d <> ""%string ->
  match nightsDiscount d with
  | Some (n, pct) =>
    n = nightsOf (checkIn d) (checkOut d)
    /\ Js.le (Num 2) n
    /\ pct == (1 - lengthDiscountOf n) * 100
  | None => ~ Js.le (Num 2) (nightsOf (checkIn d) (checkOut d))
  end.
Proof.
  intros Hin Hout. unfold nightsDiscount.
  rewrite (dates_present _ _ Hin Hout). cbv zeta.
  rewrite discountOf_positive.
  destruct (Num 2 <=? nightsOf (checkIn d) (checkOut d))%js eqn:E.
  - split; [reflexivity|]. split; [apply leb_le; exact E|].
    rewrite discountOf_complement. ring.
  - intros Hle. apply leb_le in Hle. congruence.
Qed.

Lemma majorCityRow_spec (p : Property) : majorCityRow p = Spec.isMajorCity p.
Proof. apply isMajorCity_spec. Qed.

(** X14.  The fee and tax rows against the price.  For a stay of [n > 0]
    nights the cash price is the room cost, plus per night and room the sum
    of the fee rows less 35 when the property has neither Pool nor Spa
    Services, plus the room cost times the sum of the tax rows and one more
    percent: the panel always prints the resort fee and never prints the
    tourism levy. *)
Theorem panel_rows_against_price (p : Property) (basePrice : Q)
    (checkIn checkOut : string) (rooms n : Q) :
  checkIn <> ""%string -> checkOut <> ""%string ->
  nightsOf checkIn checkOut = Num n -> 0 < n ->
  let roomCost :=
    Spec.roomCost basePrice (seasonalRateOf (getMonth (newDate checkIn)))
                  (lengthDiscountOf (Num n)) n rooms in
  calculateCashPrice (Some p) basePrice checkIn checkOut rooms
  =j= Num (roomCost
           + (total (feeRows p)
              - (if Spec.hasResortFee p then 0 else 35)) * n * rooms
           + roomCost * (total (taxRows p) * 0.01 + 0.01)).
Proof.
  intros Hin Hout Hn Hpos roomCost.
  pose proof (calculateCashPrice_nights p basePrice checkIn checkOut rooms n
                Hin Hout Hn Hpos) as Hcash.
  destruct (calculateCashPrice (Some p) basePrice checkIn checkOut rooms)
    as [|c]; [contradiction|].
  simpl in *. rewrite Hcash.
  unfold Spec.hotelCash, Spec.hotelFees, Spec.hotelTaxes. fold roomCost.
  cbv zeta. unfold feeRows, taxRows. rewrite majorCityRow_spec.
  unfold HOTEL_FEES.resortFee, HOTEL_FEES.parkingFee,
         HOTEL_FEES.destinationFee, TAX_RATES.roomTax,
         TAX_RATES.occupancyTax, TAX_RATES.cityTax.
  destruct (Spec.isMajorCity p), (Spec.hasResortFee p); simpl; ring.
Qed.

(** X15.  The property list against the selection.  The selection is looked
    up in the whole table, not in the list filtered by brand: a selected
    property is in the filtered list exactly when no brand is chosen or the
    chosen brand is its own. *)
Theorem selected_property_listed
    (table : list Property) (d : Details) (p : Property) :
  selectedPropertyOf table d = Some p ->
  (In p (filteredProperties table d)
   <-> brand d = ""%string \/ brandId p = brand d).
Proof.
  intros Hsel. pose proof (selectedPropertyOf_In table d p Hsel) as Hin.
  unfold filteredProperties.
  destruct (brand d =? "")%string eqn:E.
  - apply String.eqb_eq in E. split; [left; exact E | intros _; exact Hin].
  - apply String.eqb_neq in E. rewrite filter_In. split.
    + intros [_ Hb]. right. apply String.eqb_eq. exact Hb.
    + intros [He | Hb]; [contradiction|].
      split; [exact Hin | apply String.eqb_eq; exact Hb].
Qed.

End HotelPanelRows.

Section HotelPanelRowsExamples.

Import Js HiltonProperties HotelSelector HotelPanel.

(** A September check-in: the row of the standard season. *)
Lemma season_row_matches_engine_witness :
  exists row,
    seasonAdjustment (rt := UtcRuntime.runtime)
      (Sample.stay "boise-lodge" "2024-09-10" "2024-09-13" 1 "") = Some row
    /\ percent row = Qabs ((1 - 1) * 100)
    /\ (sign row = "+"%string <-> 1 < 1)
    /\ (seasonName row = ""%string <-> 1 == 1)
    /\ (1 == 1 -> sign row = "-"%string /\ percent row == 0).
Proof.
  apply (proj2 (season_row_matches_engine (rt := UtcRuntime.runtime)
                  (Sample.stay "boise-lodge" "2024-09-10" "2024-09-13" 1
                               ""))).
  - discriminate.
  - reflexivity.
Defined.

Lemma nights_row_matches_engine_witness :
  match nightsDiscount (rt := UtcRuntime.runtime)
          (Sample.stay "boise-lodge" "2024-06-10" "2024-06-14" 1 "") with
  | Some (n, pct) =>
    n = nightsOf (rt := UtcRuntime.runtime) "2024-06-10" "2024-06-14"
    /\ Js.le (Num 2) n
    /\ pct == (1 - lengthDiscountOf n) * 100
  | None =>
    ~ Js.le (Num 2)
        (nightsOf (rt := UtcRuntime.runtime) "2024-06-10" "2024-06-14")
  end.
Proof.
  apply (nights_row_matches_engine (rt := UtcRuntime.runtime)
           (Sample.stay "boise-lodge" "2024-06-10" "2024-06-14" 1 "")).
  - discriminate.
  - discriminate.
Defined.

(** A property without pool or spa outside the major cities: the rows show
    60 in fees where 25 are charged. *)
Lemma panel_rows_against_price_witness :
  let roomCost := Spec.roomCost 100 1.4 0.95 3 1 in
  calculateCashPrice (rt := UtcRuntime.runtime) (Some Sample.lodge) 100
                     "2024-06-10" "2024-06-13" 1
  =j= Num (roomCost + (total (feeRows Sample.lodge) - 35) * 3 * 1
           + roomCost * (total (taxRows Sample.lodge) * 0.01 + 0.01)).
Proof.
  apply (panel_rows_against_price (rt := UtcRuntime.runtime) Sample.lodge
           100 "2024-06-10" "2024-06-13" 1 3).
  - discriminate.
  - discriminate.
  - reflexivity.
  - reflexivity.
Defined.

(** A property selected under the filter of another brand is priced but not
    listed. *)
Lemma selected_property_listed_witness :
  let d := {| brand := "hampton"; property := "nyc-plaza";
              checkIn := "2024-06-10"; checkOut := "2024-06-13";
              rooms := 1; points := "" |} in
  In Sample.plaza (filteredProperties Sample.expandedHiltonProperties d)
  <-> brand d = ""%string \/ brandId Sample.plaza = brand d.
Proof.
  apply (selected_property_listed Sample.expandedHiltonProperties
           {| brand := "hampton"; property := "nyc-plaza";
              checkIn := "2024-06-10"; checkOut := "2024-06-13";
              rooms := 1; points := "" |} Sample.plaza).
  reflexivity.
Defined.

End HotelPanelRowsExamples.

(* ================================================================== *)
(** * Links: when they are dead *)
(* ================================================================== *)

Section HotelLinkFacts.

Import HiltonProperties HotelLinks.

Context {host : StringHost}.

Variable hiltonBrands : list HiltonBrand.

(** The brand lookup of [getHotelUrl]. *)
Lemma getHotelUrl_cases (property : option Listing) :
  (getHotelUrl hiltonBrands property = "#"%string
   /\ (property = None
       \/ exists l, property = Some l
                    /\ find (fun b => (brand_id b =? brandId (core l))%string)
                            hiltonBrands = None))
  \/ (exists l brand rest,
        property = Some l
        /\ find (fun b => (brand_id b =? brandId (core l))%string)
                hiltonBrands = Some brand
        /\ getHotelUrl hiltonBrands property
           = ("https://www.hilton.com/en/hotels/" ++ rest)%string).
Proof.
  destruct property as [l|]; [|left; split; [reflexivity | left; reflexivity]].
  simpl.
  destruct (find (fun b => (brand_id b =? brandId (core l))%string)
                 hiltonBrands) as [brand|] eqn:Efind.
  - right. exists l, brand. eexists. split; [reflexivity|].
    split; [exact Efind|]. reflexivity.
  - left. split; [reflexivity|]. right. exists l.
    split; [reflexivity | exact Efind].
Qed.

(** X16.  [getHotelUrl] returns "#" exactly when there is no property or
    its brand is not in the brand table; [getAmenityUrl] returns "#" exactly
    when [getHotelUrl] does, and otherwise extends the hotel link by
    "amenities/#" and the amenity slug. *)
Theorem hotel_links_dead (property : option Listing) (amenity : string) :
  (getHotelUrl hiltonBrands property = "#"%string
   <-> property = None
       \/ exists l, property = Some l
                    /\ find (fun b => (brand_id b =? brandId (core l))%string)
                            hiltonBrands = None)
  /\ (getAmenityUrl hiltonBrands property amenity = "#"%string
      <-> getHotelUrl hiltonBrands property = "#"%string)
  /\ (getHotelUrl hiltonBrands property <> "#"%string ->
      getAmenityUrl hiltonBrands property amenity
      = (getHotelUrl hiltonBrands property ++ "amenities/#"
         ++ dashSpaces (toLowerCase amenity))%string).
Proof.
  destruct (getHotelUrl_cases property)
    as [[Hdead Hwhy] | (l & brand & rest & Hprop & Hfind & Hurl)].
  - split; [split; [intros _; exact Hwhy | intros _; exact Hdead]|].
    split.
    + split; [intros _; exact Hdead|]. intros _.
      unfold getAmenityUrl. destruct property; [|reflexivity].
      rewrite Hdead. reflexivity.
    + intros Hne. contradiction.
  - assert (Hlive : getHotelUrl hiltonBrands property <> "#"%string).
    { rewrite Hurl. simpl. discriminate. }
    assert (Hamen : getAmenityUrl hiltonBrands property amenity
                    = (getHotelUrl hiltonBrands property ++ "amenities/#"
                       ++ dashSpaces (toLowerCase amenity))%string).
    { unfold getAmenityUrl. rewrite Hprop. rewrite <- Hprop.
      cbv zeta. rewrite Hurl. simpl. reflexivity. }
    split; [|split].
    + split; [intros Hdead; contradiction|].
      intros [Hnone | (l' & Hsome & Hnofind)].
      * rewrite Hprop in Hnone. discriminate.
      * rewrite Hprop in Hsome. injection Hsome as <-.
        rewrite Hfind in Hnofind. discriminate.
    + split; [|intros Hdead; contradiction].
      rewrite Hamen, Hurl. simpl. discriminate.
    + intros _. exact Hamen.
Qed.

End HotelLinkFacts.

Section HotelLinkExamples.

Import HiltonProperties HotelLinks.

Lemma hotel_links_dead_witness :
  getAmenityUrl (host := AsciiHost.host) SampleLinks.hiltonBrands
                (Some SampleLinks.plaza) "Spa  Services"
  = "https://www.hilton.com/en/hotels/hilton-hotels/new york-ny-usa/nyc-plaza/amenities/#spa-services"%string.
Proof.
  refine (eq_trans
            (proj2 (proj2 (hotel_links_dead (host := AsciiHost.host)
                             SampleLinks.hiltonBrands
                             (Some SampleLinks.plaza) "Spa  Services")) _)
            _).
  - discriminate.
  - reflexivity.
Defined.

End HotelLinkExamples.

(* ================================================================== *)
(** * Grouped option lists: what the reduction builds *)
(* ================================================================== *)

Section GroupingFacts.

Import Grouping.

Context {A : Type}.

Variable key : A -> string.

Lemma firsts_snoc (ks : list string) (k : string) :
  firsts (ks ++ [k])
  = if existsb (String.eqb k) (firsts ks) then firsts ks
    else firsts ks ++ [k].
Proof. unfold firsts. rewrite fold_left_app. reflexivity. Qed.

Lemma existsb_eqb_In (k : string) (ks : list string) :
  existsb (String.eqb k) ks = true <-> In k ks.
Proof.
  rewrite existsb_exists. split.
  - intros (k' & Hin & Heq). apply String.eqb_eq in Heq. subst. exact Hin.
  - intros Hin. exists k. split; [exact Hin | apply String.eqb_refl].
Qed.

Lemma existsb_eqb_notIn (k : string) (ks : list string) :
  existsb (String.eqb k) ks = false <-> ~ In k ks.
Proof.
  rewrite <- existsb_eqb_In.
  destruct (existsb (String.eqb k) ks); split; intros H; congruence.
Qed.

Lemma firsts_In (ks : list string) (k : string) :
  In k (firsts ks) <-> In k ks.
Proof.
  induction ks as [|k' ks IH] using rev_ind; [reflexivity|].
  rewrite firsts_snoc, in_app_iff.
  destruct (existsb (String.eqb k') (firsts ks)) eqn:E.
  - apply existsb_eqb_In in E. rewrite IH. split; [tauto|].
    intros [Hin | [<- | []]]; [exact Hin|]. apply IH. exact E.
  - rewrite in_app_iff, IH. reflexivity.
Qed.

Lemma firsts_NoDup (ks : list string) : NoDup (firsts ks).
Proof.
  induction ks as [|k ks IH] using rev_ind; [constructor|].
  rewrite firsts_snoc.
  destruct (existsb (String.eqb k) (firsts ks)) eqn:E; [exact IH|].
  apply existsb_eqb_notIn in E.
  apply NoDup_app; [exact IH | repeat constructor; intros [] |].
  intros x Hx [<- | []]. contradiction.
Qed.

Lemma filed_snoc (l : list A) (x : A) (k : string) :
  filed key (l ++ [x]) k
  = filed key l k ++ (if (key x =? k)%string then [x] else []).
Proof. unfold filed. rewrite filter_app. reflexivity. Qed.

Lemma filed_absent (l : list A) (k : string) :
  ~ In k (map key l) -> filed key l k = [].
Proof.
  intros Hout. unfold filed. induction l as [|x l IH]; [reflexivity|].
  simpl. destruct (key x =? k)%string eqn:E.
  - apply String.eqb_eq in E. exfalso. apply Hout. left. exact E.
  - apply IH. intros Hin. apply Hout. right. exact Hin.
Qed.

(** Lookup of an own property in a list of groups built from keys. *)
Lemma find_groups (G : string -> list A) (ks : list string) (k : string) :
  find (fun e : string * list A => (fst e =? k)%string)
       (map (fun k' => (k', G k')) ks)
  = if existsb (String.eqb k) ks then Some (k, G k) else None.
Proof.
  induction ks as [|k' ks IH]; [reflexivity|]. simpl.
  rewrite (String.eqb_sym k k').
  destruct (k' =? k)%string eqn:E; simpl; [|exact IH].
  apply String.eqb_eq in E. subst. reflexivity.
Qed.

Lemma set_present (G : string -> list A) (ks : list string) (k : string)
    (v : list A) :
  NoDup ks -> In k ks ->
  set (map (fun k' => (k', G k')) ks) k v
  = map (fun k' => (k', if (k' =? k)%string then v else G k')) ks.
Proof.
  induction ks as [|k' ks IH]; [intros _ []|].
  intros Hnd Hin. inversion Hnd as [|? ? Hout Hnd']; subst. simpl.
  destruct (k' =? k)%string eqn:E.
  - apply String.eqb_eq in E. subst k'. f_equal.
    apply map_ext_in. intros k' Hk'.
    destruct (k' =? k)%string eqn:E'; [|reflexivity].
    apply String.eqb_eq in E'. subst. contradiction.
  - f_equal. apply IH; [exact Hnd'|].
    destruct Hin as [Heq | Hin]; [|exact Hin].
    subst. rewrite String.eqb_refl in E. discriminate.
Qed.

Lemma set_absent (o : list (string * list A)) (k : string) (v : list A) :
  find (fun e : string * list A => (fst e =? k)%string) o = None ->
  set o k v = o ++ [(k, v)].
Proof.
  induction o as [|[k' g] o IH]; [reflexivity|]. simpl.
  destruct (k' =? k)%string; [discriminate|].
  intros Hnone. f_equal. apply IH. exact Hnone.
Qed.

Lemma set_last (o : list (string * list A)) (k : string) (v v' : list A) :
  find (fun e : string * list A => (fst e =? k)%string) o = None ->
  set (o ++ [(k, v)]) k v' = o ++ [(k, v')].
Proof.
  induction o as [|[k' g] o IH]; simpl.
  - rewrite String.eqb_refl. reflexivity.
  - destruct (k' =? k)%string; [discriminate|].
    intros Hnone. f_equal. apply IH. exact Hnone.
Qed.

Lemma find_last (o : list (string * list A)) (k : string) (v : list A) :
  find (fun e : string * list A => (fst e =? k)%string) o = None ->
  find (fun e : string * list A => (fst e =? k)%string) (o ++ [(k, v)])
  = Some (k, v).
Proof.
  induction o as [|[k' g] o IH]; simpl.
  - rewrite String.eqb_refl. reflexivity.
  - destruct (k' =? k)%string; [discriminate|]. exact IH.
Qed.

(** A reducer call on a key that is an own property. *)
Lemma step_present (o : list (string * list A)) (x : A) (g : list A) :
  find (fun e : string * list A => (fst e =? key x)%string) o
  = Some (key x, g) ->
  step key (Some o) x = Some (set o (key x) (g ++ [x])).
Proof.
  intros Hfind. unfold step, get. rewrite Hfind. simpl.
  rewrite Hfind. reflexivity.
Qed.

(** A reducer call on a new key outside [Object.prototype]. *)
Lemma step_fresh (o : list (string * list A)) (x : A) :
  find (fun e : string * list A => (fst e =? key x)%string) o = None ->
  inherited (key x) = false ->
  step key (Some o) x = Some (o ++ [(key x, [x])]).
Proof.
  intros Hfind Hown. unfold step, get. rewrite Hfind, Hown. simpl.
  rewrite (set_absent o (key x) [] Hfind).
  rewrite (find_last o (key x) [] Hfind). simpl.
  rewrite (set_last o (key x) [] [x] Hfind). reflexivity.
Qed.

(** A reducer call on a new key of [Object.prototype]: [push] is missing. *)
Lemma step_inherited (o : list (string * list A)) (x : A) :
  find (fun e : string * list A => (fst e =? key x)%string) o = None ->
  inherited (key x) = true ->
  step key (Some o) x = None.
Proof.
  intros Hfind Hproto. unfold step, get. rewrite Hfind, Hproto. simpl.
  rewrite Hfind. reflexivity.
Qed.

Lemma reduce_snoc (l : list A) (x : A) :
  reduce key (l ++ [x]) = step key (reduce key l) x.
Proof. unfold reduce. rewrite fold_left_app. reflexivity. Qed.

Lemma fold_step_None (l : list A) : fold_left (step key) l None = None.
Proof. induction l as [|x l IH]; [reflexivity | exact IH]. Qed.

Lemma reduce_closed (l : list A) :
  (forall x, In x l -> inherited (key x) = false) ->
  reduce key l = Some (closed key l).
Proof.
  induction l as [|x l IH] using rev_ind; [reflexivity|].
  intros Hown. rewrite reduce_snoc, IH.
  2:{ intros y Hy. apply Hown. apply in_or_app. left. exact Hy. }
  assert (Hx : inherited (key x) = false).
  { apply Hown. apply in_or_app. right. left. reflexivity. }
  pose proof (find_groups (filed key l) (firsts (map key l)) (key x))
    as Hfind.
  unfold closed. rewrite map_app. change (map key [x]) with [key x].
  rewrite firsts_snoc.
  destruct (existsb (String.eqb (key x)) (firsts (map key l))) eqn:E.
  - rewrite (step_present _ x _ Hfind). f_equal.
    rewrite set_present;
      [| apply firsts_NoDup | apply existsb_eqb_In; exact E].
    apply map_ext. intros k. rewrite filed_snoc.
    rewrite (String.eqb_sym k (key x)).
    destruct (key x =? k)%string eqn:Ek.
    + apply String.eqb_eq in Ek. subst k. reflexivity.
    + rewrite app_nil_r. reflexivity.
  - rewrite (step_fresh _ x Hfind Hx). f_equal.
    rewrite map_app. simpl. f_equal.
    + apply map_ext_in. intros k Hk. rewrite filed_snoc.
      destruct (key x =? k)%string eqn:Ek; [|rewrite app_nil_r; reflexivity].
      apply String.eqb_eq in Ek. subst k.
      apply existsb_eqb_notIn in E. contradiction.
    + rewrite filed_snoc, String.eqb_refl.
      rewrite filed_absent; [reflexivity|].
      apply existsb_eqb_notIn in E. rewrite firsts_In in E. exact E.
Qed.

Lemma first_inherited (l : list A) :
  (exists x, In x l /\ inherited (key x) = true) ->
  exists l1 x l2,
    l = l1 ++ x :: l2 /\ inherited (key x) = true
    /\ forall y, In y l1 -> inherited (key y) = false.
Proof.
  induction l as [|a l IH]; [intros (x & [] & _)|].
  intros (x & Hin & Hx).
  destruct (inherited (key a)) eqn:Ea.
  - exists [], a, l. split; [reflexivity|]. split; [exact Ea|].
    intros y [].
  - destruct Hin as [<- | Hin]; [congruence|].
    destruct (IH (ex_intro _ x (conj Hin Hx)))
      as (l1 & x' & l2 & -> & Hx' & Hl1).
    exists (a :: l1), x', l2. split; [reflexivity|]. split; [exact Hx'|].
    intros y [<- | Hy]; [exact Ea | apply Hl1; exact Hy].
Qed.

(** X17.  The reduction throws exactly when some item has a key that is a
    property name of [Object.prototype] (such as "constructor" or
    "toString"): the inherited value is truthy, no array is created, and
    [push] is not a function. *)
Theorem grouping_throws_iff (l : list A) :
  groups key l = None
  <-> exists x, In x l /\ inherited (key x) = true.
Proof.
  unfold groups. split.
  - intros Hnone.
    destruct (existsb (fun x => inherited (key x)) l) eqn:E.
    + apply existsb_exists in E. exact E.
    + rewrite reduce_closed in Hnone; [discriminate|].
      intros x Hx. destruct (inherited (key x)) eqn:Ex; [|reflexivity].
      assert (Hex : existsb (fun x => inherited (key x)) l = true).
      { apply existsb_exists. exists x. split; assumption. }
      congruence.
  - intros Hex.
    destruct (first_inherited l Hex) as (l1 & x & l2 & -> & Hx & Hl1).
    unfold reduce. rewrite fold_left_app. simpl.
    fold (reduce key l1). rewrite (reduce_closed l1 Hl1).
    rewrite step_inherited, fold_step_None; [reflexivity | | exact Hx].
    unfold closed. rewrite find_groups.
    destruct (existsb (String.eqb (key x)) (firsts (map key l1))) eqn:E;
      [|reflexivity].
    apply existsb_eqb_In in E. rewrite firsts_In in E.
    apply in_map_iff in E. destruct E as (y & Hy & Hin).
    pose proof (Hl1 y Hin) as Hown. rewrite Hy in Hown. congruence.
Qed.

End GroupingFacts.

Section GroupingEntries.

Import Grouping.

Context {V : Type}.

Lemma insertByIndex_perm (e : string * V) (l : list (string * V)) :
  Permutation (insertByIndex e l) (e :: l).
Proof.
  induction l as [|e' l IH]; [reflexivity|]. simpl.
  destruct (indexOf (fst e) <=? indexOf (fst e'))%N; [reflexivity|].
  rewrite IH. apply perm_swap.
Qed.

Lemma sortByIndex_perm (l : list (string * V)) :
  Permutation (sortByIndex l) l.
Proof.
  induction l as [|e l IH]; [reflexivity|]. simpl.
  rewrite insertByIndex_perm, IH. reflexivity.
Qed.

Lemma split_perm (f : string * V -> bool) (l : list (string * V)) :
  Permutation (filter f l ++ filter (fun e => negb (f e)) l) l.
Proof.
  induction l as [|e l IH]; [reflexivity|]. simpl.
  destruct (f e); simpl.
  - apply perm_skip. exact IH.
  - symmetry. apply Permutation_cons_app. symmetry. exact IH.
Qed.

(** [Object.entries] lists every own property once. *)
Lemma entries_perm (o : list (string * V)) : Permutation (entries o) o.
Proof.
  unfold entries. rewrite sortByIndex_perm. apply split_perm.
Qed.

(** Without array-index keys the creation order is kept. *)
Lemma entries_no_index (o : list (string * V)) :
  (forall e, In e o -> isIndex (fst e) = false) -> entries o = o.
Proof.
  intros Hno. unfold entries.
  assert (Hidx : filter (fun e => isIndex (fst e)) o = []).
  { induction o as [|e o IH]; [reflexivity|]. simpl.
    rewrite (Hno e (or_introl eq_refl)).
    apply IH. intros e' He'. apply Hno. right. exact He'. }
  assert (Hrest : filter (fun e => negb (isIndex (fst e))) o = o).
  { induction o as [|e o IH]; [reflexivity|]. simpl.
    rewrite (Hno e (or_introl eq_refl)). simpl. f_equal.
    apply IH.
    - intros e' He'. apply Hno. right. exact He'.
    - simpl in Hidx. rewrite (Hno e (or_introl eq_refl)) in Hidx.
      exact Hidx. }
  rewrite Hidx, Hrest. reflexivity.
Qed.

End GroupingEntries.

Section GroupingResult.

Import Grouping.

Context {A : Type}.

Variable key : A -> string.

Lemma closed_keys (l : list A) :
  map fst (closed key l) = firsts (map key l).
Proof.
  unfold closed. rewrite map_map. simpl. apply map_id.
Qed.

Lemma closed_In (l : list A) (k : string) (g : list A) :
  In (k, g) (closed key l) <-> In k (map key l) /\ g = filed key l k.
Proof.
  unfold closed. rewrite in_map_iff. split.
  - intros (k' & Heq & Hin). injection Heq as <- <-.
    split; [apply firsts_In; exact Hin | reflexivity].
  - intros [Hin ->]. exists k. split; [reflexivity|].
    apply firsts_In. exact Hin.
Qed.

(** X18.  When no key is a property name of [Object.prototype], the
    reduction succeeds and the rendered groups partition the items: the
    group keys are distinct, there is a group for exactly the keys that
    occur, each group holds the items with its key in their original order,
    and so every item is listed in the group of its key and in no other. *)
Theorem grouping_partitions (l : list A) :
  (forall x, In x l -> inherited (key x) = false) ->
  exists es,
    groups key l = Some es
    /\ NoDup (map fst es)
    /\ (forall k g, In (k, g) es
                    <-> In k (map key l) /\ g = filed key l k)
    /\ (forall k g x, In (k, g) es -> (In x g <-> In x l /\ key x = k)).
Proof.
  intros Hown. exists (entries (closed key l)).
  assert (Hin : forall k g, In (k, g) (entries (closed key l))
                            <-> In k (map key l) /\ g = filed key l k).
  { intros k g. rewrite <- closed_In. split.
    - apply Permutation_in, entries_perm.
    - apply Permutation_in. symmetry. apply entries_perm. }
  split; [|split; [|split]].
  - unfold groups. rewrite (reduce_closed key l Hown). reflexivity.
  - apply (Permutation_NoDup (l := map fst (closed key l))).
    + apply Permutation_map. symmetry. apply entries_perm.
    + rewrite closed_keys. apply firsts_NoDup.
  - exact Hin.
  - intros k g x Hg. apply Hin in Hg. destruct Hg as [_ ->].
    unfold filed. rewrite filter_In, String.eqb_eq. reflexivity.
Qed.

(** X19.  When, in addition, no key is an array index, the groups are
    rendered in the order in which their keys first appear. *)
Theorem grouping_in_order_of_appearance (l : list A) :
  (forall x, In x l ->
             inherited (key x) = false /\ isIndex (key x) = false) ->
  groups key l
  = Some (map (fun k => (k, filed key l k)) (firsts (map key l))).
Proof.
  intros Hkeys. unfold groups.
  rewrite (reduce_closed key l); [|intros x Hx; apply (Hkeys x Hx)].
  simpl. f_equal. apply entries_no_index.
  intros [k g] He. apply closed_In in He. destruct He as [Hk _].
  apply in_map_iff in Hk. destruct Hk as (x & <- & Hx).
  apply (Hkeys x Hx).
Qed.

End GroupingResult.

Section GroupingExamples.

Import Grouping HotelLinks.

Lemma sample_brand_keys (b : HiltonBrand) :
  In b SampleGroups.hiltonBrands ->
  inherited (category b) = false /\ isIndex (category b) = false.
Proof.
  simpl. intros [<- | [<- | [<- | [<- | []]]]]; split; reflexivity.
Qed.

(** A brand filed under the category "constructor". *)
Lemma grouping_throws_iff_witness :
  groups category
         (SampleGroups.hiltonBrands
          ++ [SampleGroups.brand "x" "X" "constructor"]) = None.
Proof.
  apply (proj2 (grouping_throws_iff category
                  (SampleGroups.hiltonBrands
                   ++ [SampleGroups.brand "x" "X" "constructor"]))).
  exists (SampleGroups.brand "x" "X" "constructor").
  split; [|reflexivity].
  apply in_or_app. right. left. reflexivity.
Defined.

Lemma grouping_partitions_witness :
  exists es,
    groups category SampleGroups.hiltonBrands = Some es
    /\ NoDup (map fst es)
    /\ (forall k g, In (k, g) es
                    <-> In k (map category SampleGroups.hiltonBrands)
                        /\ g = filed category SampleGroups.hiltonBrands k)
    /\ (forall k g x, In (k, g) es
                      -> (In x g <-> In x SampleGroups.hiltonBrands
                                     /\ category x = k)).
Proof.
  apply (grouping_partitions category SampleGroups.hiltonBrands).
  intros x Hx. apply (sample_brand_keys x Hx).
Defined.

Lemma grouping_in_order_of_appearance_witness :
  option_map (map (fun e => (fst e, map brand_id (snd e))))
             (groups category SampleGroups.hiltonBrands)
  = Some [("Luxury", ["wa"; "co"]);
          ("Full Service", ["hi"]);
          ("Focused Service", ["hp"])]%string.
Proof.
  rewrite (grouping_in_order_of_appearance category
             SampleGroups.hiltonBrands sample_brand_keys).
  reflexivity.
Defined.

End GroupingExamples.
